(** * The shape/text annotation dialog of coretk (dialogs/shapemod.py)

    A shallow embedding of [ShapeDialog]: the dialog object, the [Shape]
    annotation it edits, the annotation's [shape_data] record and the Tk
    canvas it draws on, followed by the properties of the edit/commit/cancel
    workflow.

    Conventions of the embedding:
    - Python objects that are shared by reference ([Shape] instances, which
      the dialog holds as [self.shape] and the canvas holds in its [shapes]
      and [texts] registries) live in a heap indexed by object identity;
    - methods are computations in a state-and-exception monad over the world
      (heap, canvas, dialog); an exception keeps the mutations made before it;
    - [tk.StringVar]/[tk.IntVar] are the values they hold, and [int] applied
      to the result of [IntVar.get] is the identity on integers;
    - the numbers produced by [1.5 * size] and [(x0 + x1) / 2] are Python
      floats: they are computed in binary64 with the IEEE 754 operations of
      the Standard Library ([SpecFloat]), and the canvas stores the rational
      the resulting double stands for;
    - [print] is not modelled in the dialog.

    The operating-system detection and the system steps of the install tasks
    (tasks.py) are embedded after the dialog, in module [tasks], with their
    own conventions. *)

From Stdlib Require Import ZArith QArith Qround String Ascii List.
From Stdlib Require SpecFloat.
From stdpp Require Import base option functions gmap strings list fin_maps.

Local Open Scope string_scope.
Local Open Scope Z_scope.
Local Open Scope list_scope.

(** ** Python and Tk values *)

(** Entries of a font descriptor such as [["Arial", 12, "bold"]]. *)
Inductive pyval :=
| PStr (s : string)
| PInt (n : Z).

(** Values of Tk options as the dialog passes them. *)
Inductive tkval :=
| TkStr (s : string)
| TkInt (n : Z)
| TkFont (f : list pyval).

(** A colour attribute: a hex string, or Python's [None]. *)
Definition color := option string.

(** Exceptions the dialog can run into. *)
Inductive exn :=
| AttributeError
| KeyError
| TypeError
| TclError.

(** Identity of a [Shape] object. *)
Definition ref := positive.

(** [coretk.images.ImageEnum]: the dialog only tells [OVAL], [RECTANGLE] and
    [TEXT] apart from each other and from the remaining members. *)
Inductive ImageEnum :=
| OVAL
| RECTANGLE
| TEXT
| OtherImage (name : string).

Global Instance ImageEnum_eq_dec : EqDecision ImageEnum.
Proof. solve_decision. Defined.

(** [int(v.get())] for an [IntVar] [v]. *)
Definition int (n : Z) : Z := n.

(** ** The annotation's style record ([shape.shape_data]) *)

Module AnnotationData.
Record t := Build {
  text : string;
  font : string;
  font_size : Z;
  text_color : color;
  fill_color : color;
  border_color : color;
  border_width : Z;
  bold : Z;
  italic : Z;
  underline : Z
}.

Definition set_text v (d : t) :=
  Build v (font d) (font_size d) (text_color d) (fill_color d)
    (border_color d) (border_width d) (bold d) (italic d) (underline d).
Definition set_font v (d : t) :=
  Build (text d) v (font_size d) (text_color d) (fill_color d)
    (border_color d) (border_width d) (bold d) (italic d) (underline d).
Definition set_font_size v (d : t) :=
  Build (text d) (font d) v (text_color d) (fill_color d)
    (border_color d) (border_width d) (bold d) (italic d) (underline d).
Definition set_text_color v (d : t) :=
  Build (text d) (font d) (font_size d) v (fill_color d)
    (border_color d) (border_width d) (bold d) (italic d) (underline d).
Definition set_fill_color v (d : t) :=
  Build (text d) (font d) (font_size d) (text_color d) v
    (border_color d) (border_width d) (bold d) (italic d) (underline d).
Definition set_border_color v (d : t) :=
  Build (text d) (font d) (font_size d) (text_color d) (fill_color d)
    v (border_width d) (bold d) (italic d) (underline d).
Definition set_border_width v (d : t) :=
  Build (text d) (font d) (font_size d) (text_color d) (fill_color d)
    (border_color d) v (bold d) (italic d) (underline d).
Definition set_bold v (d : t) :=
  Build (text d) (font d) (font_size d) (text_color d) (fill_color d)
    (border_color d) (border_width d) v (italic d) (underline d).
Definition set_italic v (d : t) :=
  Build (text d) (font d) (font_size d) (text_color d) (fill_color d)
    (border_color d) (border_width d) (bold d) v (underline d).
Definition set_underline v (d : t) :=
  Build (text d) (font d) (font_size d) (text_color d) (fill_color d)
    (border_color d) (border_width d) (bold d) (italic d) v.
End AnnotationData.

(** ** The annotation ([coretk.graph.shape.Shape]) *)

Module Shape.
(** The attributes the dialog touches. [id] is the canvas identifier of the
    annotation's element (for a text annotation the dialog never reads it
    before [add_text] has assigned it); [x0], [y0] are the origin; [text_id]
    is the identifier of the text element, [None] while there is none. *)
Record t := Build {
  id : Z;
  x0 : Q;
  y0 : Q;
  text_id : option Z;
  created : bool;
  shape_data : AnnotationData.t
}.

Definition set_id v (s : t) :=
  Build v (x0 s) (y0 s) (text_id s) (created s) (shape_data s).
Definition set_text_id v (s : t) :=
  Build (id s) (x0 s) (y0 s) v (created s) (shape_data s).
Definition set_created v (s : t) :=
  Build (id s) (x0 s) (y0 s) (text_id s) v (shape_data s).
Definition set_shape_data v (s : t) :=
  Build (id s) (x0 s) (y0 s) (text_id s) (created s) v.
End Shape.

(** ** The canvas: Tk's display list and the two annotation registries *)

Module Canvas.
Inductive item_type := oval | rectangle | text.

(** A canvas item: its type, its coordinates and the options that were
    configured on it (an absent option has Tk's default). *)
Record item := Item {
  type : item_type;
  coords : list Q;
  options : gmap string tkval
}.

Record t := Build {
  items : gmap Z item;
  next_id : Z;
  shapes : gmap Z ref;
  texts : gmap Z ref;
  annotation_type : ImageEnum
}.

Definition set_items v (c : t) :=
  Build v (next_id c) (shapes c) (texts c) (annotation_type c).
Definition set_next_id v (c : t) :=
  Build (items c) v (shapes c) (texts c) (annotation_type c).
Definition set_shapes v (c : t) :=
  Build (items c) (next_id c) v (texts c) (annotation_type c).
Definition set_texts v (c : t) :=
  Build (items c) (next_id c) (shapes c) v (annotation_type c).

(** Option names Tk accepts for each item type. *)
Definition common_options : list string :=
  ["fill"; "activefill"; "disabledfill"; "stipple"; "activestipple";
   "disabledstipple"; "state"; "tags"; "width"].
Definition outline_options : list string :=
  ["dash"; "activedash"; "disableddash"; "dashoffset"; "offset"; "outline";
   "activeoutline"; "disabledoutline"; "outlineoffset"; "outlinestipple";
   "activeoutlinestipple"; "disabledoutlinestipple"; "activewidth";
   "disabledwidth"].
Definition text_options : list string :=
  ["anchor"; "angle"; "font"; "justify"; "text"; "underline"].

Definition accepts (ty : item_type) (name : string) : bool :=
  match ty with
  | oval | rectangle => bool_decide (name ∈ common_options ++ outline_options)
  | text => bool_decide (name ∈ common_options ++ text_options)
  end.

(** tkinter drops keyword arguments whose value is [None] before it calls
    Tk ([Misc._options]). *)
Definition _options (kw : list (string * option tkval)) : list (string * tkval) :=
  omap (λ '(k, v), pair k <$> v) kw.

(** Tk applies the options one after the other and stops at the first one
    the item type does not know; the options before it stay applied. *)
Fixpoint configure (opts : list (string * tkval)) (it : item) : item * option exn :=
  match opts with
  | [] => (it, None)
  | (k, v) :: rest =>
      if accepts (type it) k
      then configure rest (Item (type it) (coords it) (<[k := v]> (options it)))
      else (it, Some TclError)
  end.

(** [canvas.itemconfig(id, **kw)]: no item of that id, nothing happens. *)
Definition itemconfig (i : Z) (kw : list (string * option tkval)) (c : t)
  : t * option exn :=
  match items c !! i with
  | None => (c, None)
  | Some it =>
      let '(it', e) := configure (_options kw) it in
      (set_items (<[i := it']> (items c)) c, e)
  end.

(** [canvas.create_text(x, y, **kw)]: the item takes the next identifier;
    the identifier is used up even when Tk rejects the options. *)
Definition create_text (x y : Q) (kw : list (string * option tkval)) (c : t)
  : t * (exn + Z) :=
  let i := next_id c in
  let c := set_next_id (i + 1) c in
  match configure (_options kw) (Item text [x; y] ∅) with
  | (it, None) => (set_items (<[i := it]> (items c)) c, inr i)
  | (_, Some e) => (c, inl e)
  end.

(** [canvas.delete(id)] *)
Definition delete (i : Z) (c : t) : t :=
  set_items (base.delete i (items c)) c.

(** [canvas.bbox(id)]: [None] when no item has that id. Tk's geometry
    (which depends on the item's coordinates, outline width, text and font)
    is the parameter [bbox_of]. *)
Definition bbox (bbox_of : item → option (Z * Z * Z * Z)) (i : Z) (c : t)
  : option (Z * Z * Z * Z) :=
  items c !! i ≫= bbox_of.

(** Identifiers handed out so far are below [next_id]: Tk never reuses
    one. *)
Definition wf (c : t) : Prop :=
  map_Forall (λ i _, i < next_id c) (items c).
End Canvas.

(** ** The dialog object *)

(** A [ttk.Label] used as a colour swatch: the two options the dialog sets. *)
Record Label := mkLabel {
  label_text : option string;
  label_background : option string
}.

(** [label.config(background=b, text=t)]; [None] arguments are dropped. *)
Definition label_config (b t : option string) (l : Label) : Label :=
  mkLabel (from_option Some (label_text l) t)
          (from_option Some (label_background l) b).

Module Dialog.
(** The attributes of a [ShapeDialog]. [id], [fill] and [border] are only
    assigned on some paths: [None] is the attribute that does not exist (or
    holds Python's [None], which raises the same [AttributeError] when
    [config] is called on it). *)
Record t := Build {
  annotation_type : ImageEnum;
  id : option Z;
  fill : option Label;
  border : option Label;
  shape : ref;
  shape_text : string;
  font : string;
  font_size : Z;
  text_color : color;
  fill_color : color;
  border_color : color;
  border_width : Z;
  bold : Z;
  italic : Z;
  underline : Z;
  destroyed : bool
}.

Definition set_id v (d : t) :=
  Build (annotation_type d) v (fill d) (border d) (shape d) (shape_text d)
    (font d) (font_size d) (text_color d) (fill_color d) (border_color d)
    (border_width d) (bold d) (italic d) (underline d) (destroyed d).
Definition set_fill v (d : t) :=
  Build (annotation_type d) (id d) v (border d) (shape d) (shape_text d)
    (font d) (font_size d) (text_color d) (fill_color d) (border_color d)
    (border_width d) (bold d) (italic d) (underline d) (destroyed d).
Definition set_border v (d : t) :=
  Build (annotation_type d) (id d) (fill d) v (shape d) (shape_text d)
    (font d) (font_size d) (text_color d) (fill_color d) (border_color d)
    (border_width d) (bold d) (italic d) (underline d) (destroyed d).
Definition set_shape_text v (d : t) :=
  Build (annotation_type d) (id d) (fill d) (border d) (shape d) v
    (font d) (font_size d) (text_color d) (fill_color d) (border_color d)
    (border_width d) (bold d) (italic d) (underline d) (destroyed d).
Definition set_font v (d : t) :=
  Build (annotation_type d) (id d) (fill d) (border d) (shape d) (shape_text d)
    v (font_size d) (text_color d) (fill_color d) (border_color d)
    (border_width d) (bold d) (italic d) (underline d) (destroyed d).
Definition set_font_size v (d : t) :=
  Build (annotation_type d) (id d) (fill d) (border d) (shape d) (shape_text d)
    (font d) v (text_color d) (fill_color d) (border_color d)
    (border_width d) (bold d) (italic d) (underline d) (destroyed d).
Definition set_text_color v (d : t) :=
  Build (annotation_type d) (id d) (fill d) (border d) (shape d) (shape_text d)
    (font d) (font_size d) v (fill_color d) (border_color d)
    (border_width d) (bold d) (italic d) (underline d) (destroyed d).
Definition set_fill_color v (d : t) :=
  Build (annotation_type d) (id d) (fill d) (border d) (shape d) (shape_text d)
    (font d) (font_size d) (text_color d) v (border_color d)
    (border_width d) (bold d) (italic d) (underline d) (destroyed d).
Definition set_border_color v (d : t) :=
  Build (annotation_type d) (id d) (fill d) (border d) (shape d) (shape_text d)
    (font d) (font_size d) (text_color d) (fill_color d) v
    (border_width d) (bold d) (italic d) (underline d) (destroyed d).
Definition set_border_width v (d : t) :=
  Build (annotation_type d) (id d) (fill d) (border d) (shape d) (shape_text d)
    (font d) (font_size d) (text_color d) (fill_color d) (border_color d)
    v (bold d) (italic d) (underline d) (destroyed d).
Definition set_bold v (d : t) :=
  Build (annotation_type d) (id d) (fill d) (border d) (shape d) (shape_text d)
    (font d) (font_size d) (text_color d) (fill_color d) (border_color d)
    (border_width d) v (italic d) (underline d) (destroyed d).
Definition set_italic v (d : t) :=
  Build (annotation_type d) (id d) (fill d) (border d) (shape d) (shape_text d)
    (font d) (font_size d) (text_color d) (fill_color d) (border_color d)
    (border_width d) (bold d) v (underline d) (destroyed d).
Definition set_underline v (d : t) :=
  Build (annotation_type d) (id d) (fill d) (border d) (shape d) (shape_text d)
    (font d) (font_size d) (text_color d) (fill_color d) (border_color d)
    (border_width d) (bold d) (italic d) v (destroyed d).
Definition set_destroyed v (d : t) :=
  Build (annotation_type d) (id d) (fill d) (border d) (shape d) (shape_text d)
    (font d) (font_size d) (text_color d) (fill_color d) (border_color d)
    (border_width d) (bold d) (italic d) (underline d) v.
End Dialog.

(** ** The world and the monad of methods *)

Record world := World {
  heap : ref → Shape.t;
  canvas : Canvas.t;
  self : Dialog.t
}.

Definition set_heap v (w : world) := World v (canvas w) (self w).
Definition set_canvas v (w : world) := World (heap w) v (self w).
Definition set_self v (w : world) := World (heap w) (canvas w) v.

(** The result of running a method: it returns or raises, and in both cases
    leaves a world behind. *)
Inductive outcome (A : Type) :=
| Ok (a : A) (w : world)
| Raise (e : exn) (w : world).
Arguments Ok {A} a w.
Arguments Raise {A} e w.

Definition final {A} (o : outcome A) : world :=
  match o with Ok _ w | Raise _ w => w end.

Definition M (A : Type) : Type := world → outcome A.

Global Instance M_ret : MRet M := λ A a w, Ok a w.
Global Instance M_bind : MBind M := λ A B f m w,
  match m w with
  | Ok a w' => f a w'
  | Raise e w' => Raise e w'
  end.

Definition gets {A} (f : world → A) : M A := λ w, Ok (f w) w.
Definition modify (f : world → world) : M unit := λ w, Ok tt (f w).

(** Reading an attribute that may not exist. *)
Definition attr {A} (f : Dialog.t → option A) : M A :=
  λ w,
    match f (self w) with
    | Some a => Ok a w
    | None => Raise AttributeError w
    end.

(** Assignments to attributes of the dialog and of a shape. *)
Definition assign_self (f : Dialog.t → Dialog.t) : M unit :=
  modify (λ w, set_self (f (self w)) w).
Definition assign_shape (l : ref) (f : Shape.t → Shape.t) : M unit :=
  modify (λ w, set_heap (<[l := f (heap w l)]> (heap w)) w).
Definition assign_data (l : ref) (f : AnnotationData.t → AnnotationData.t) : M unit :=
  assign_shape l (λ s, Shape.set_shape_data (f (Shape.shape_data s)) s).
Definition assign_canvas (f : Canvas.t → Canvas.t) : M unit :=
  modify (λ w, set_canvas (f (canvas w)) w).

(** The canvas calls, lifted to methods. *)
Definition canvas_itemconfig (i : Z) (kw : list (string * option tkval)) : M unit :=
  λ w,
    match Canvas.itemconfig i kw (canvas w) with
    | (c, None) => Ok tt (set_canvas c w)
    | (c, Some e) => Raise e (set_canvas c w)
    end.

Definition canvas_create_text (x y : Q) (kw : list (string * option tkval)) : M Z :=
  λ w,
    match Canvas.create_text x y kw (canvas w) with
    | (c, inr i) => Ok i (set_canvas c w)
    | (c, inl e) => Raise e (set_canvas c w)
    end.

(** [d[k]] and [d.pop(k)] on a registry raise [KeyError] on a missing key. *)
Definition shapes_getitem (i : Z) : M ref :=
  λ w,
    match Canvas.shapes (canvas w) !! i with
    | Some l => Ok l w
    | None => Raise KeyError w
    end.

Definition shapes_pop (i : Z) : M ref :=
  l ← shapes_getitem i;
  assign_canvas (λ c, Canvas.set_shapes (delete i (Canvas.shapes c)) c);;
  mret l.

(** ** ShapeDialog *)

Definition FONT_SIZES : list Z :=
  [8; 9; 10; 11; 12; 14; 16; 18; 20; 22; 24; 26; 28; 36; 48; 72].
Definition BORDER_WIDTH : list Z := [0; 1; 2; 3; 4; 5; 6; 7; 8; 9; 10].

(** What [colorchooser.askcolor] returns: [((r, g, b), "#rrggbb")], or
    [(None, None)] when the user dismisses the prompt. *)
Definition askcolor_result : Type := option (Z * Z * Z) * option string.

Definition is_shape (d : Dialog.t) : bool :=
  bool_decide (Dialog.annotation_type d = OVAL)
  || bool_decide (Dialog.annotation_type d = RECTANGLE).

Definition is_text (d : Dialog.t) : bool :=
  bool_decide (Dialog.annotation_type d = TEXT).

(** [ShapeDialog.__init__] followed by the attributes [draw] assigns: the
    variables are seeded from the annotation's [shape_data]; [id] and the two
    swatches exist for shapes only. *)
Definition __init__ (h : ref → Shape.t) (c : Canvas.t) (shape : ref) : Dialog.t :=
  let annotation_type := Canvas.annotation_type c in
  let shaped :=
    bool_decide (annotation_type = OVAL) || bool_decide (annotation_type = RECTANGLE) in
  let data := Shape.shape_data (h shape) in
  let fill_color := AnnotationData.fill_color data in
  let border_color := AnnotationData.border_color data in
  Dialog.Build annotation_type
    (if shaped then Some (Shape.id (h shape)) else None)
    (if shaped then Some (mkLabel fill_color fill_color) else None)
    (if shaped then Some (mkLabel border_color fill_color) else None)
    shape
    (AnnotationData.text data)
    (AnnotationData.font data)
    (AnnotationData.font_size data)
    (AnnotationData.text_color data)
    fill_color
    border_color
    (AnnotationData.border_width data)
    (AnnotationData.bold data)
    (AnnotationData.italic data)
    (AnnotationData.underline data)
    false.

Definition choose_text_color (color : askcolor_result) : M unit :=
  assign_self (Dialog.set_text_color (snd color)).

Definition choose_fill_color (color : askcolor_result) : M unit :=
  assign_self (Dialog.set_fill_color (snd color));;
  fill ← attr Dialog.fill;
  assign_self (Dialog.set_fill (Some (label_config (snd color) (snd color) fill))).

Definition choose_border_color (color : askcolor_result) : M unit :=
  assign_self (Dialog.set_border_color (snd color));;
  border ← attr Dialog.border;
  assign_self (Dialog.set_border (Some (label_config (snd color) (snd color) border))).

(** Modelled from the spec: [Dialog.destroy] (coretk/dialogs/dialog.py is not
    part of the sources) closes the editor window. *)
Definition destroy : M unit :=
  assign_self (Dialog.set_destroyed true).

Definition cancel : M unit :=
  d ← gets self;
  uncommitted ←
    (if is_shape d then
       i ← attr Dialog.id;
       l ← shapes_getitem i;
       s ← gets (λ w, heap w l);
       mret (negb (Shape.created s))
     else mret false);
  (if uncommitted : bool then
     i ← attr Dialog.id;
     assign_canvas (Canvas.delete i);;
     i ← attr Dialog.id;
     shapes_pop i;;
     mret tt
   else mret tt);;
  destroy.

Definition make_font (d : Dialog.t) : list pyval :=
  let size := int (Dialog.font_size d) in
  let text_font := [PStr (Dialog.font d); PInt size] in
  let text_font :=
    if bool_decide (Dialog.bold d = 1) then text_font ++ [PStr "bold"] else text_font in
  let text_font :=
    if bool_decide (Dialog.italic d = 1) then text_font ++ [PStr "italic"] else text_font in
  let text_font :=
    if bool_decide (Dialog.underline d = 1) then text_font ++ [PStr "underline"]
    else text_font in
  text_font.

Definition save_text : M unit :=
  d ← gets self;
  let data := Dialog.shape d in
  assign_data data (AnnotationData.set_text (Dialog.shape_text d));;
  assign_data data (AnnotationData.set_font (Dialog.font d));;
  assign_data data (AnnotationData.set_font_size (int (Dialog.font_size d)));;
  assign_data data (AnnotationData.set_text_color (Dialog.text_color d));;
  assign_data data (AnnotationData.set_bold (Dialog.bold d));;
  assign_data data (AnnotationData.set_italic (Dialog.italic d));;
  assign_data data (AnnotationData.set_underline (Dialog.underline d)).

Definition save_shape : M unit :=
  d ← gets self;
  let data := Dialog.shape d in
  assign_data data (AnnotationData.set_fill_color (Dialog.fill_color d));;
  assign_data data (AnnotationData.set_border_color (Dialog.border_color d));;
  assign_data data (AnnotationData.set_border_width (int (Dialog.border_width d))).

(** The keyword arguments of the three canvas calls that style or create an
    element. *)
Definition shape_kw (d : Dialog.t) : list (string * option tkval) :=
  [("fill", TkStr <$> Dialog.fill_color d);
   ("dash", Some (TkStr ""));
   ("outline", TkStr <$> Dialog.border_color d);
   ("width", Some (TkInt (int (Dialog.border_width d))))].

Definition label_kw (d : Dialog.t) (text : string) (text_font : list pyval)
  : list (string * option tkval) :=
  [("text", Some (TkStr text));
   ("fill", TkStr <$> Dialog.text_color d);
   ("font", Some (TkFont text_font))].

Definition add_text : M unit :=
  d ← gets self;
  let text := Dialog.shape_text d in
  x ← gets (λ w, Shape.x0 (heap w (Dialog.shape d)));
  y ← gets (λ w, Shape.y0 (heap w (Dialog.shape d)));
  let text_font := make_font d in
  text_id ← gets (λ w, Shape.text_id (heap w (Dialog.shape d)));
  (if text_id is None then
     tid ← canvas_create_text x y
             (label_kw d text text_font ++ [("tags", Some (TkStr "text"))]);
     assign_shape (Dialog.shape d) (Shape.set_text_id (Some tid));;
     assign_self (Dialog.set_id (Some tid));;
     assign_shape (Dialog.shape d) (Shape.set_id tid);;
     assign_canvas (λ c, Canvas.set_texts (<[tid := Dialog.shape d]> (Canvas.texts c)) c);;
     assign_shape (Dialog.shape d) (Shape.set_created true)
   else mret tt);;
  save_text.

(** The label anchor of [add_shape], [_y = y0 + 1.5 * size] and
    [_x = (x0 + x1) / 2] over the bounding box [canvas.bbox] returned, as
    CPython evaluates the two lines in binary64: [float n] is the conversion
    of an int to a double, [float_1_5] the literal [1.5], every operation
    rounds to nearest-even, and the quotient of two ints that fit a double is
    the quotient of their doubles. *)
Definition float (n : Z) : SpecFloat.spec_float :=
  SpecFloat.binary_normalize 53 1024 n 0 false.

Definition float_1_5 : SpecFloat.spec_float :=
  SpecFloat.S754_finite false 6755399441055744 (-52).

Definition label_anchor_binary64 (bbox : Z * Z * Z * Z) (size : Z)
  : SpecFloat.spec_float * SpecFloat.spec_float :=
  let '(x0, y0, x1, y1) := bbox in
  let _y := SpecFloat.SFadd 53 1024 (float y0)
              (SpecFloat.SFmul 53 1024 float_1_5 (float size)) in
  let _x := SpecFloat.SFdiv 53 1024 (float (x0 + x1)) (float 2) in
  (_x, _y).

(** The rational [m * 2 ^ e], in lowest terms. *)
Definition scaled (m e : Z) : Q :=
  Qred (if 0 <=? e then inject_Z (m * 2 ^ e) else (m # Z.to_pos (2 ^ (- e)))).

(** The rational a finite double stands for. *)
Definition float_value (x : SpecFloat.spec_float) : option Q :=
  match x with
  | SpecFloat.S754_zero _ => Some 0%Q
  | SpecFloat.S754_finite s m e => Some (scaled (if s then Z.neg m else Z.pos m) e)
  | _ => None
  end.

(** The coordinate the canvas stores for a double. An infinity or a NaN
    arises only from an int of more than a thousand bits, where CPython
    raises [OverflowError] or hands Tk an infinite coordinate; it is no point
    of the canvas and is read as 0. *)
Definition coordinate (x : SpecFloat.spec_float) : Q := default 0%Q (float_value x).

Definition label_anchor (bbox : Z * Z * Z * Z) (size : Z) : Q * Q :=
  let '(_x, _y) := label_anchor_binary64 bbox size in
  (coordinate _x, coordinate _y).

Section ShapeDialog.
(** Tk's measurement of an item. *)
Variable bbox_of : Canvas.item → option (Z * Z * Z * Z).

(** [x0, y0, x1, y1 = self.canvas.bbox(id)]: unpacking [None] raises. *)
Definition canvas_bbox (i : Z) : M (Z * Z * Z * Z) :=
  λ w,
    match Canvas.bbox bbox_of i (canvas w) with
    | Some bb => Ok bb w
    | None => Raise TypeError w
    end.

Definition add_shape : M unit :=
  d ← gets self;
  i ← attr Dialog.id;
  canvas_itemconfig i (shape_kw d);;
  let shape_text := Dialog.shape_text d in
  let size := int (Dialog.font_size d) in
  i ← attr Dialog.id;
  bbox ← canvas_bbox i;
  let '(_x, _y) := label_anchor bbox size in
  let text_font := make_font d in
  text_id ← gets (λ w, Shape.text_id (heap w (Dialog.shape d)));
  match text_id with
  | None =>
      tid ← canvas_create_text _x _y
              (label_kw d shape_text text_font ++ [("tags", Some (TkStr "shapetext"))]);
      assign_shape (Dialog.shape d) (Shape.set_text_id (Some tid));;
      assign_shape (Dialog.shape d) (Shape.set_created true)
  | Some text_id =>
      canvas_itemconfig text_id (label_kw d shape_text text_font)
  end;;
  save_text;;
  save_shape.

Definition click_add : M unit :=
  d ← gets self;
  (if is_shape d then add_shape
   else if is_text d then add_text
   else mret tt);;
  destroy.
End ShapeDialog.

(** ** Event sequences of the open dialog *)

(** What the user can do in the form before pressing a button: write one of
    the Tk variables through its widget, or answer one of the colour
    prompts. *)
Inductive edit :=
| EditShapeText (s : string)
| EditFont (s : string)
| EditFontSize (n : Z)
| EditBorderWidth (n : Z)
| EditBold (n : Z)
| EditItalic (n : Z)
| EditUnderline (n : Z)
| ChooseTextColor (answer : askcolor_result)
| ChooseFillColor (answer : askcolor_result)
| ChooseBorderColor (answer : askcolor_result).

Definition apply_edit (e : edit) : M unit :=
  match e with
  | EditShapeText s => assign_self (Dialog.set_shape_text s)
  | EditFont s => assign_self (Dialog.set_font s)
  | EditFontSize n => assign_self (Dialog.set_font_size n)
  | EditBorderWidth n => assign_self (Dialog.set_border_width n)
  | EditBold n => assign_self (Dialog.set_bold n)
  | EditItalic n => assign_self (Dialog.set_italic n)
  | EditUnderline n => assign_self (Dialog.set_underline n)
  | ChooseTextColor a => choose_text_color a
  | ChooseFillColor a => choose_fill_color a
  | ChooseBorderColor a => choose_border_color a
  end.

(** Tk reports an exception raised by a callback and goes on with the next
    event, so a sequence of events threads the world each handler leaves. *)
Fixpoint edits (es : list edit) (w : world) : world :=
  match es with
  | [] => w
  | e :: es => edits es (final (apply_edit e w))
  end.

(** ** Vocabulary of the specification *)

(** The EditSession read as a style record: the values staged in the form. *)
Definition staged (d : Dialog.t) : AnnotationData.t :=
  AnnotationData.Build (Dialog.shape_text d) (Dialog.font d) (Dialog.font_size d)
    (Dialog.text_color d) (Dialog.fill_color d) (Dialog.border_color d)
    (Dialog.border_width d) (Dialog.bold d) (Dialog.italic d) (Dialog.underline d).

(** The font descriptor as the specification words it: family, size, then
    the modifiers bold, italic, underline, each present when its flag is
    set. *)
Definition style_modifiers (bold italic underline : bool) : list string :=
  (if bold then ["bold"] else [])
  ++ (if italic then ["italic"] else [])
  ++ (if underline then ["underline"] else []).

Definition font_descriptor (family : string) (size : Z) (bold italic underline : bool)
  : list pyval :=
  PStr family :: PInt size :: (PStr <$> style_modifiers bold italic underline).

(** A checkbox variable is set when it holds the on-value 1. *)
Definition flag_set (n : Z) : bool := bool_decide (n = 1).

(** An annotation that has its label has been committed: [add_shape] and
    [add_text] assign [text_id] and [created] together. *)
Definition labelled_is_created (s : Shape.t) : Prop :=
  Shape.text_id s ≠ None → Shape.created s = true.

(** An integer that fits a C int, as the coordinates of a Tk bounding box
    do. *)
Definition c_int (n : Z) : Prop := - 2 ^ 31 ≤ n < 2 ^ 31.

(** The double of [n * 2 ^ e] with sign [s], for a positive [n] of at most
    53 bits: the mantissa is shifted up to 53 bits. *)
Definition normal (s : bool) (n : positive) (e : Z) : SpecFloat.spec_float :=
  let k := 53 - Z.pos (SpecFloat.digits2_pos n) in
  SpecFloat.S754_finite s (Pos.shiftl n (Z.to_N k)) (e - k).

(** The double of [n * 2 ^ e] for an integer [n] of at most 53 bits. *)
Definition double (n e : Z) : SpecFloat.spec_float :=
  match n with
  | 0 => SpecFloat.S754_zero false
  | Z.pos p => normal false p e
  | Z.neg p => normal true p e
  end.

(** The style record after [save_text] alone: the seven text fields come
    from the session, the three shape fields stay. *)
Definition text_saved (d : Dialog.t) (data : AnnotationData.t) : AnnotationData.t :=
  AnnotationData.Build (Dialog.shape_text d) (Dialog.font d) (Dialog.font_size d)
    (Dialog.text_color d) (AnnotationData.fill_color data)
    (AnnotationData.border_color data) (AnnotationData.border_width data)
    (Dialog.bold d) (Dialog.italic d) (Dialog.underline d).

(** The style record after [save_shape] alone: the three shape fields come
    from the session. *)
Definition shape_saved (d : Dialog.t) (data : AnnotationData.t) : AnnotationData.t :=
  AnnotationData.Build (AnnotationData.text data) (AnnotationData.font data)
    (AnnotationData.font_size data) (AnnotationData.text_color data)
    (Dialog.fill_color d) (Dialog.border_color d) (Dialog.border_width d)
    (AnnotationData.bold data) (AnnotationData.italic data)
    (AnnotationData.underline data).

(** A method keeps the canvas well formed, whether it returns or raises. *)
Definition keeps_wf {A} (m : M A) : Prop :=
  ∀ w, Canvas.wf (canvas w) → Canvas.wf (canvas (final (m w))).

(** ** Example worlds *)

(** A geometry for the examples: the bounding box of an oval or rectangle is
    its four coordinates rounded down; other items have none. *)
Definition example_bbox_of (it : Canvas.item) : option (Z * Z * Z * Z) :=
  match Canvas.coords it with
  | [a; b; c; d] => Some (Qfloor a, Qfloor b, Qfloor c, Qfloor d)
  | _ => None
  end.

Definition example_data : AnnotationData.t :=
  AnnotationData.Build "" "Arial" 10 (Some "#000000") (Some "#CFCFFF")
    (Some "#000000") 1 0 0 0.

Definition example_rectangle : Canvas.item :=
  Canvas.Item Canvas.rectangle [10; 20; 50; 60]%Q ∅.

Definition example_label : Canvas.item :=
  Canvas.Item Canvas.text [30; 35]%Q
    {[ "text" := TkStr "old"; "fill" := TkStr "#000000" ]}.

(** What the user does in the examples before pressing a button. *)
Definition example_edits : list edit :=
  [EditShapeText "lan"; EditBold 1; EditUnderline 1; EditFont "Arial";
   ChooseTextColor (Some (255, 0, 0), Some "#ff0000")].

(** The dialog opened on annotation [shape] and edited. *)
Definition opened (h : ref → Shape.t) (c : Canvas.t) (shape : ref) : world :=
  edits example_edits (World h c (__init__ h c shape)).

(** A rectangle that was just drawn: a placeholder on the canvas, no label,
    not yet committed. *)
Definition new_shape_world : world :=
  opened (λ _, Shape.Build 1 10 20 None false example_data)
    (Canvas.Build {[ 1 := example_rectangle ]} 2 {[ 1 := 1%positive ]} ∅ RECTANGLE)
    1%positive.

(** A rectangle committed earlier, with its label. *)
Definition labelled_shape_world : world :=
  opened (λ _, Shape.Build 1 10 20 (Some 2) true example_data)
    (Canvas.Build {[ 1 := example_rectangle; 2 := example_label ]} 3
       {[ 1 := 1%positive ]} ∅ RECTANGLE)
    1%positive.

(** A text annotation (object 2) placed at (30, 35) next to a committed
    rectangle (object 1), before and after its first commit. *)
Definition new_text_world : world :=
  opened (<[2%positive := Shape.Build 0 30 35 None false example_data]>
            (λ _, Shape.Build 1 10 20 None true example_data))
    (Canvas.Build {[ 1 := example_rectangle ]} 2 {[ 1 := 1%positive ]} ∅ TEXT)
    2%positive.

Definition old_text_world : world :=
  opened (<[2%positive := Shape.Build 2 30 35 (Some 2) true example_data]>
            (λ _, Shape.Build 1 10 20 None true example_data))
    (Canvas.Build {[ 1 := example_rectangle; 2 := example_label ]} 3
       {[ 1 := 1%positive ]} {[ 2 := 2%positive ]} TEXT)
    2%positive.

(** A dialog whose font is Arial 12 with bold and underline checked. *)
Definition example_dialog : Dialog.t :=
  Dialog.Build TEXT None None None 1%positive "hello" "Arial" 12
    (Some "#000000") None None 0 1 0 1 false.

(** ** Invariants and readiness *)

(** A method keeps the invariant [I] of the world, whether it returns or
    raises. *)
Definition keeps {A} (I : world → Prop) (m : M A) : Prop :=
  ∀ w, I w → I (final (m w)).



(** The body of [click_add] before [destroy]. *)
Definition commit_body (bbox_of : Canvas.item → option (Z * Z * Z * Z)) (d : Dialog.t)
  : M unit :=
  if is_shape d then add_shape bbox_of else if is_text d then add_text else mret tt.

(** ** More example worlds *)


(** The editor of a rectangle that was deleted from the canvas and from the
    registry while the window was open. *)
Definition stale_shape_world : world :=
  set_canvas (Canvas.Build ∅ 2 ∅ ∅ RECTANGLE) new_shape_world.

(** * Operating-system detection of the install tasks (tasks.py)

    Strings are Python [str] values whose characters are code points below
    U+0100. A function that can raise or call [sys.exit] returns an
    [outcome]; what it printed before exiting is kept with the exit code. *)

Module tasks.

Inductive error :=
| ValueError
| KeyError
| TypeError
| FileNotFoundError
| UnexpectedExit
| SystemError (message : string).

Inductive outcome (A : Type) :=
| Returns (a : A)
| Raises (e : error)
| Exits (printed : list string) (code : Z).
Arguments Returns {A} a.
Arguments Raises {A} e.
Arguments Exits {A} printed code.

(** ** The string methods the tasks use *)

(** [str.isspace] on one character below U+0100. *)
Definition isspace (a : ascii) : bool :=
  let n := nat_of_ascii a in
  ((9 <=? n) && (n <=? 13) || (28 <=? n) && (n <=? 32)
   || (n =? 133) || (n =? 160))%nat.

Fixpoint lstrip (p : ascii → bool) (s : string) : string :=
  match s with
  | String a s' => if p a then lstrip p s' else s
  | EmptyString => EmptyString
  end.

Definition rstrip (p : ascii → bool) (s : string) : string :=
  String.rev (lstrip p (String.rev s)).

(** [s.strip()] and [s.strip(chars)] *)
Definition strip_with (p : ascii → bool) (s : string) : string :=
  rstrip p (lstrip p s).
Definition strip (s : string) : string := strip_with isspace s.
Definition strip_quotes (s : string) : string :=
  strip_with (λ a, Ascii.eqb a "034"%char) s.

(** [s.split(sep)] for a one-character separator: always at least one
    part. *)
Fixpoint split_on (sep : ascii) (s : string) : list string :=
  match s with
  | EmptyString => [EmptyString]
  | String a s' =>
      if Ascii.eqb a sep then EmptyString :: split_on sep s'
      else match split_on sep s' with
           | part :: parts => String a part :: parts
           | [] => [String a EmptyString]
           end
  end.

(** [s.split()]: the maximal runs of non-whitespace characters. [word] is
    the run being read, last character first. *)
Fixpoint split_go (word : string) (s : string) : list string :=
  match s with
  | EmptyString => if word is EmptyString then [] else [String.rev word]
  | String a s' =>
      if isspace a
      then (if word is EmptyString then split_go EmptyString s'
            else String.rev word :: split_go EmptyString s')
      else split_go (String a word) s'
  end.
Definition split (s : string) : list string := split_go EmptyString s.

(** [sep.join(parts)] *)
Definition join (sep : string) (parts : list string) : string :=
  String.concat sep parts.

(** Text mode with universal newlines: [\r\n] and [\r] are read as [\n]. *)
Fixpoint universal_newlines (s : string) : string :=
  match s with
  | EmptyString => EmptyString
  | String a s' =>
      if Ascii.eqb a "013"%char
      then match s' with
           | String b s'' =>
               if Ascii.eqb b "010"%char
               then String "010"%char (universal_newlines s'')
               else String "010"%char (universal_newlines s')
           | EmptyString => String "010"%char EmptyString
           end
      else String a (universal_newlines s')
  end.

(** [f.readlines()]: the lines, each with its newline. [line] is the line
    being read, last character first. *)
Fixpoint readlines_go (line : string) (s : string) : list string :=
  match s with
  | EmptyString => if line is EmptyString then [] else [String.rev line]
  | String a s' =>
      if Ascii.eqb a "010"%char
      then String.rev (String a line) :: readlines_go EmptyString s'
      else readlines_go (String a line) s'
  end.
Definition readlines (content : string) : list string :=
  readlines_go EmptyString (universal_newlines content).

(** ** OsName, OsLike, OsInfo *)

Definition REDHAT_LIKE : gset string := {[ "redhat"; "fedora" ]}.
Definition DEBIAN_LIKE : gset string := {[ "ubuntu"; "debian" ]}.

Module OsName.
Inductive t := UBUNTU | CENTOS | UNKNOWN.

Definition value (n : t) : string :=
  match n with
  | UBUNTU => "ubuntu"
  | CENTOS => "centos"
  | UNKNOWN => "unknown"
  end.

(** [OsName(name)]: the member with that value; [None] is [ValueError]. *)
Definition of_value (name : string) : option t :=
  if String.eqb name "ubuntu" then Some UBUNTU
  else if String.eqb name "centos" then Some CENTOS
  else if String.eqb name "unknown" then Some UNKNOWN
  else None.

Definition get (name : string) : t :=
  match of_value name with
  | Some n => n
  | None => UNKNOWN
  end.
End OsName.

Module OsLike.
Inductive t := DEBIAN | REDHAT.

Definition value (n : t) : string :=
  match n with
  | DEBIAN => "debian"
  | REDHAT => "rhel"
  end.

Fixpoint get (values : list string) : option t :=
  match values with
  | [] => None
  | value :: values =>
      if bool_decide (value ∈ DEBIAN_LIKE) then Some DEBIAN
      else if bool_decide (value ∈ REDHAT_LIKE) then Some REDHAT
      else get values
  end.
End OsLike.

(** The [version] attribute of an [OsInfo]: a float when a non-empty string
    was parsed, else the falsy value that was passed in. *)
Inductive version :=
| VersionNone
| VersionEmpty
| VersionFloat (x : SpecFloat.spec_float).

Module OsInfo.
Record t := Build {
  name : OsName.t;
  like : OsLike.t;
  version : tasks.version
}.

Section Get.
(** Python's [float(s)] on a string; [None] is [ValueError]. *)
Variable py_float : string → option SpecFloat.spec_float.

Definition get (name : string) (like : list string) (version : option string)
  : outcome t :=
  let os_name := OsName.get name in
  let os_like := OsLike.get like in
  match os_like with
  | None =>
      let like := join " " like in
      Exits [("unsupported os install type(" ++ like ++ ")")%string;
             "trying using the -i option to specify an install type"] 1
  | Some os_like =>
      match version with
      | None => Returns (Build os_name os_like VersionNone)
      | Some EmptyString => Returns (Build os_name os_like VersionEmpty)
      | Some version =>
          match py_float version with
          | Some x => Returns (Build os_name os_like (VersionFloat x))
          | None => Exits [("os version is not a float: " ++ version)%string] 1
          end
      end
  end.
End Get.
End OsInfo.

Section Detection.
Variable py_float : string → option SpecFloat.spec_float.

(** The loop of [get_os] over the lines of /etc/os-release. *)
Fixpoint parse_lines (lines : list string) (d : gmap string string)
  : outcome (gmap string string) :=
  match lines with
  | [] => Returns d
  | line :: lines =>
      let line := strip line in
      if line is EmptyString then parse_lines lines d
      else match split_on "="%char line with
           | [key; value] => parse_lines lines (<[key := strip_quotes value]> d)
           | _ => Raises ValueError
           end
  end.

(** [get_os(install_type)]; [os_release] is the content of
    /etc/os-release, [None] when the file cannot be opened. *)
Definition get_os (install_type : option string) (os_release : option string)
  : outcome OsInfo.t :=
  match install_type with
  | Some (String _ _ as install_type) =>
      let name_value := OsName.value OsName.UNKNOWN in
      let like_value := install_type in
      OsInfo.get py_float name_value (split like_value) None
  | _ =>
      match os_release with
      | None => Raises FileNotFoundError
      | Some content =>
          match parse_lines (readlines content) ∅ with
          | Returns d =>
              match d !! "ID" with
              | None => Raises KeyError
              | Some name_value =>
                  let like_value := default EmptyString (d !! "ID_LIKE") in
                  match d !! "VERSION_ID" with
                  | None => Raises KeyError
                  | Some version_value =>
                      OsInfo.get py_float name_value (split like_value) (Some version_value)
                  end
              end
          | Raises e => Raises e
          | Exits printed code => Exits printed code
          end
      end
  end.
End Detection.

(** ** Running commands

    The state of a task is the list of the commands run so far, oldest
    first. [succeeds] tells whether a command exits with status 0, given the
    commands run before it. [c.run] raises [UnexpectedExit] when the command
    fails and [warn] is not set; its result is only ever read for its truth
    value, which is whether the command succeeded. The [hide] argument only
    selects what is echoed and is left out. *)

Definition Sh (A : Type) : Type := list string → outcome A * list string.

Global Instance Sh_ret : MRet Sh := λ A a ran, (Returns a, ran).
Global Instance Sh_bind : MBind Sh := λ A B k m ran,
  match m ran with
  | (Returns a, ran') => k a ran'
  | (Raises e, ran') => (Raises e, ran')
  | (Exits printed code, ran') => (Exits printed code, ran')
  end.

Definition raise {A} (e : error) : Sh A := λ ran, (Raises e, ran).
Definition sys_exit {A} (printed : list string) (code : Z) : Sh A :=
  λ ran, (Exits printed code, ran).

(** [x >= 8] for a float [x]: false for a NaN. *)
Definition float_ge_8 (x : SpecFloat.spec_float) : bool :=
  match x with
  | SpecFloat.S754_finite false m e =>
      if (0 <=? e)%Z then (8 <=? Z.pos m * 2 ^ e)%Z
      else (8 * 2 ^ (- e) <=? Z.pos m)%Z
  | SpecFloat.S754_infinity false => true
  | _ => false
  end.

(** [version >= 8]: comparing [None] or a string with an int raises. *)
Definition version_ge_8 (v : version) : Sh bool :=
  match v with
  | VersionFloat x => mret (float_ge_8 x)
  | VersionNone | VersionEmpty => raise TypeError
  end.

Definition double_quote : string := String "034"%char EmptyString.
Definition newline : string := String "010"%char EmptyString.

Section Install.
Variable succeeds : list string → string → bool.
Variable environ : gmap string string.

Definition run (command : string) (warn : bool) : Sh bool :=
  λ ran,
    if succeeds ran command then (Returns true, ran ++ [command])
    else if warn then (Returns false, ran ++ [command])
    else (Raises UnexpectedExit, ran ++ [command]).

Definition get_env_python : string := default "python3" (environ !! "PYTHON").
Definition get_env_python_dep : string :=
  default "python3" (environ !! "PYTHON_DEP").

Definition check_existing_core : Sh unit :=
  found ← run ("python -c " ++ double_quote ++ "import core" ++ double_quote)%string true;
  if found : bool
  then raise (SystemError "existing python core installation detected, please remove")
  else
    let python_bin := get_env_python in
    found ← run (python_bin ++ " -c " ++ double_quote ++ "import core" ++ double_quote)%string true;
    if found : bool
    then raise (SystemError ("existing " ++ python_bin
                             ++ " core installation detected, please remove")%string)
    else
      found ← run "which core-daemon" true;
      if found : bool
      then raise (SystemError "core scripts found, please remove old installation")
      else mret tt.

Definition install_system (os_info : OsInfo.t) (no_python : bool) : Sh unit :=
  let python_dep := get_env_python_dep in
  match OsInfo.like os_info with
  | OsLike.DEBIAN =>
      _ ← run ("sudo apt install -y automake pkg-config gcc libev-dev nftables "
               ++ "iproute2 ethtool tk bash")%string false;
      if negb no_python
      then _ ← run ("sudo apt install -y " ++ python_dep ++ "-tk")%string false;
           mret tt
      else mret tt
  | OsLike.REDHAT =>
      _ ← run ("sudo yum install -y automake pkgconf-pkg-config gcc gcc-c++ "
               ++ "libev-devel nftables iproute tk ethtool make bash")%string false;
      _ ← (if negb no_python
           then _ ← run ("sudo yum install -y " ++ python_dep ++ "-devel "
                         ++ python_dep ++ "-tkinter ")%string false;
                mret tt
           else mret tt);
      centos8 ← match OsInfo.name os_info with
                | OsName.CENTOS => version_ge_8 (OsInfo.version os_info)
                | _ => mret false
                end;
      if centos8 : bool
      then
        _ ← run "sudo yum install -y kernel-modules-extra" false;
        loaded ← run "sudo modprobe sch_netem" true;
        if negb loaded : bool
        then sys_exit [(newline ++ "ERROR: you need to install the latest kernel")%string;
                       "run the following, restart, and try again";
                       "sudo yum update"] 1
        else mret tt
      else mret tt
  end.
End Install.

End tasks.


(** Number of occurrences of a character. *)
Fixpoint count_char (c : ascii) (s : string) : nat :=
  match s with
  | EmptyString => 0
  | String a s' => (if Ascii.eqb a c then 1 else 0) + count_char c s'
  end.

(** The exit statuses of commands run one after the other. *)
Fixpoint exit_statuses (succeeds : list string → string → bool)
    (ran : list string) (commands : list string) : list bool :=
  match commands with
  | [] => []
  | command :: commands =>
      succeeds ran command :: exit_statuses succeeds (ran ++ [command]) commands
  end.

(** /etc/os-release of Debian 12, which has no ID_LIKE line. *)
Definition debian_release : string :=
  ("PRETTY_NAME=" ++ tasks.double_quote ++ "Debian GNU/Linux 12 (bookworm)"
     ++ tasks.double_quote ++ tasks.newline
   ++ "NAME=" ++ tasks.double_quote ++ "Debian GNU/Linux" ++ tasks.double_quote
     ++ tasks.newline
   ++ "VERSION_ID=" ++ tasks.double_quote ++ "12" ++ tasks.double_quote
     ++ tasks.newline
   ++ "VERSION=" ++ tasks.double_quote ++ "12 (bookworm)" ++ tasks.double_quote
     ++ tasks.newline
   ++ "VERSION_CODENAME=bookworm" ++ tasks.newline
   ++ "ID=debian" ++ tasks.newline)%string.

(** A float parser that knows the decimal numerals "12" and "7". *)
Definition example_float (s : string) : option SpecFloat.spec_float :=
  if String.eqb s "12" then Some (SpecFloat.S754_finite false 6755399441055744 (-49))
  else if String.eqb s "7" then Some (SpecFloat.S754_finite false 7881299347898368 (-50))
  else None.

(** A value that [OsLike.get] recognises. *)
Definition recognised (value : string) : Prop :=
  value ∈ tasks.DEBIAN_LIKE ∨ value ∈ tasks.REDHAT_LIKE.

(** A line that the loop of [get_os] accepts: blank once stripped, or with
    exactly one "=". *)
Definition well_formed (line : string) : Prop :=
  tasks.strip line = "" ∨ count_char "="%char (tasks.strip line) = 1%nat.

(** ** Tactics for running methods *)

Ltac run_step :=
  unfold mbind, M_bind, mret, M_ret, attr, gets, modify,
         assign_data, assign_self, assign_shape, assign_canvas;
  cbn [self heap canvas set_self set_heap set_canvas final].
Ltac run := run_step; repeat (progress run_step).

Ltac simpl_records :=
  cbn [Shape.set_shape_data Shape.shape_data Shape.id Shape.x0 Shape.y0
       Shape.text_id Shape.created Shape.set_id Shape.set_text_id Shape.set_created
       AnnotationData.set_text AnnotationData.set_font AnnotationData.set_font_size
       AnnotationData.set_text_color AnnotationData.set_bold AnnotationData.set_italic
       AnnotationData.set_underline AnnotationData.set_fill_color
       AnnotationData.set_border_color AnnotationData.set_border_width
       AnnotationData.text AnnotationData.font AnnotationData.font_size
       AnnotationData.text_color AnnotationData.bold AnnotationData.italic
       AnnotationData.underline AnnotationData.fill_color
       AnnotationData.border_color AnnotationData.border_width].

(** Replace the next [save_text]/[save_shape] of the goal by the world its
    specification [spec] describes. *)
Ltac step_save m spec w' :=
  let Hrun := fresh "Hrun" in
  let Hself := fresh "Hself" in
  let Hcanvas := fresh "Hcanvas" in
  let Hheap := fresh "Hheap" in
  let Hframe := fresh "Hframe" in
  match goal with
  | |- context [m ?w] =>
      destruct (spec w) as (w' & Hrun & Hself & Hcanvas & Hheap & Hframe);
      rewrite Hrun; clear Hrun;
      cbn [self heap canvas set_self set_heap set_canvas Dialog.shape Dialog.set_id]
        in Hself, Hcanvas, Hheap, Hframe
  end.

(** ** Facts about the canvas *)

Lemma configure_shape_kw d it :
  Canvas.type it ≠ Canvas.text →
  ∃ o, Canvas.configure (Canvas._options (shape_kw d)) it
       = (Canvas.Item (Canvas.type it) (Canvas.coords it) o, None).
Proof.
  intros Hty. destruct it as [ty cs o]. cbn [Canvas.type Canvas.coords] in *.
  unfold shape_kw.
  destruct (Dialog.fill_color d), (Dialog.border_color d), ty; try done; cbn; eauto.
Qed.


Lemma configure_new_label d s f tags cs :
  ∃ o, Canvas.configure (Canvas._options (label_kw d s f ++ [("tags", Some tags)]))
         (Canvas.Item Canvas.text cs ∅)
       = (Canvas.Item Canvas.text cs o, None)
     ∧ o !! "text" = Some (TkStr s)
     ∧ o !! "fill" = TkStr <$> Dialog.text_color d
     ∧ o !! "font" = Some (TkFont f)
     ∧ o !! "tags" = Some tags.
Proof.
  unfold label_kw.
  destruct (Dialog.text_color d); cbn; eexists; (split; [reflexivity|]);
    repeat split; by simplify_map_eq.
Qed.

Lemma itemconfig_absent i kw c :
  Canvas.items c !! i = None → Canvas.itemconfig i kw c = (c, None).
Proof. intros H. unfold Canvas.itemconfig. by rewrite H. Qed.

Lemma itemconfig_shape d i it c :
  Canvas.items c !! i = Some it →
  Canvas.type it ≠ Canvas.text →
  ∃ o, Canvas.itemconfig i (shape_kw d) c
       = (Canvas.set_items
            (<[i := Canvas.Item (Canvas.type it) (Canvas.coords it) o]> (Canvas.items c)) c,
          None).
Proof.
  intros Hi Hty. destruct (configure_shape_kw d it Hty) as [o Ho].
  exists o. unfold Canvas.itemconfig. by rewrite Hi, Ho.
Qed.


Lemma create_text_label d s f tags x y c :
  ∃ o, Canvas.create_text x y (label_kw d s f ++ [("tags", Some tags)]) c
       = (Canvas.set_items
            (<[Canvas.next_id c := Canvas.Item Canvas.text [x; y] o]> (Canvas.items c))
            (Canvas.set_next_id (Canvas.next_id c + 1) c),
          inr (Canvas.next_id c))
     ∧ o !! "text" = Some (TkStr s)
     ∧ o !! "fill" = TkStr <$> Dialog.text_color d
     ∧ o !! "font" = Some (TkFont f)
     ∧ o !! "tags" = Some tags.
Proof.
  destruct (configure_new_label d s f tags [x; y]) as (o & Ho & Hl).
  exists o. split; [|exact Hl]. unfold Canvas.create_text. by rewrite Ho.
Qed.

(** Tk never hands out an identifier twice: the next identifier names no
    item of a well-formed canvas, and every canvas call keeps the canvas
    well formed. *)
Lemma wf_next_id_fresh c : Canvas.wf c → Canvas.items c !! Canvas.next_id c = None.
Proof.
  intros Hwf. destruct (Canvas.items c !! Canvas.next_id c) as [it|] eqn:H; [|done].
  apply Hwf in H. cbn in H. lia.
Qed.

Lemma wf_itemconfig i kw c : Canvas.wf c → Canvas.wf (Canvas.itemconfig i kw c).1.
Proof.
  intros Hwf. unfold Canvas.itemconfig.
  destruct (Canvas.items c !! i) as [it|] eqn:Hi; [|done].
  destruct (Canvas.configure _ it) as [it' e]. cbn.
  unfold Canvas.wf. cbn. apply map_Forall_insert_2; [|done].
  by apply (Hwf _ _ Hi).
Qed.

Lemma wf_create_text x y kw c : Canvas.wf c → Canvas.wf (Canvas.create_text x y kw c).1.
Proof.
  intros Hwf. unfold Canvas.create_text.
  assert (Hw : map_Forall (λ i _, i < Canvas.next_id c + 1) (Canvas.items c)).
  { intros i it Hi. apply Hwf in Hi. cbn in Hi. lia. }
  destruct (Canvas.configure _ _) as [it [e|]]; unfold Canvas.wf; cbn; [done|].
  apply map_Forall_insert_2; [lia|done].
Qed.

Lemma wf_delete i c : Canvas.wf c → Canvas.wf (Canvas.delete i c).
Proof. intros Hwf. unfold Canvas.wf, Canvas.delete. cbn. by apply map_Forall_delete. Qed.

(** ** Well-formedness of the canvas is an invariant of the dialog *)

Lemma keeps_wf_bind {A B} (m : M A) (f : A → M B) :
  keeps_wf m → (∀ a, keeps_wf (f a)) → keeps_wf (m ≫= f).
Proof.
  intros Hm Hf w Hw. specialize (Hm w Hw). unfold mbind, M_bind.
  destruct (m w) as [a w'|e w']; cbn in *; [by apply Hf|done].
Qed.

Lemma keeps_wf_ret {A} (a : A) : keeps_wf (mret a).
Proof. by intros w Hw. Qed.

Lemma keeps_wf_gets {A} (f : world → A) : keeps_wf (gets f).
Proof. by intros w Hw. Qed.

Lemma keeps_wf_attr {A} (f : Dialog.t → option A) : keeps_wf (attr f).
Proof. intros w Hw. unfold attr. by destruct (f (self w)). Qed.

Lemma keeps_wf_assign_self f : keeps_wf (assign_self f).
Proof. by intros w Hw. Qed.

Lemma keeps_wf_assign_shape l f : keeps_wf (assign_shape l f).
Proof. by intros w Hw. Qed.

Lemma keeps_wf_assign_data l f : keeps_wf (assign_data l f).
Proof. by intros w Hw. Qed.

Lemma keeps_wf_itemconfig i kw : keeps_wf (canvas_itemconfig i kw).
Proof.
  intros w Hw. unfold canvas_itemconfig.
  pose proof (wf_itemconfig i kw _ Hw) as H.
  by destruct (Canvas.itemconfig i kw (canvas w)) as [c [e|]].
Qed.

Lemma keeps_wf_create_text x y kw : keeps_wf (canvas_create_text x y kw).
Proof.
  intros w Hw. unfold canvas_create_text.
  pose proof (wf_create_text x y kw _ Hw) as H.
  by destruct (Canvas.create_text x y kw (canvas w)) as [c [e|i]].
Qed.

Lemma keeps_wf_bbox bbox_of i : keeps_wf (canvas_bbox bbox_of i).
Proof. intros w Hw. unfold canvas_bbox. by destruct (Canvas.bbox _ _ _). Qed.

Lemma keeps_wf_shapes_getitem i : keeps_wf (shapes_getitem i).
Proof. intros w Hw. unfold shapes_getitem. by destruct (_ !! _). Qed.

Lemma keeps_wf_set_texts f :
  keeps_wf (assign_canvas (λ c, Canvas.set_texts (f c) c)).
Proof. by intros w Hw. Qed.

Lemma keeps_wf_set_shapes f :
  keeps_wf (assign_canvas (λ c, Canvas.set_shapes (f c) c)).
Proof. by intros w Hw. Qed.

Lemma keeps_wf_delete i : keeps_wf (assign_canvas (Canvas.delete i)).
Proof. intros w Hw. by apply wf_delete. Qed.

Ltac keeps_wf :=
  repeat first
    [ apply keeps_wf_bind; [|intros ?]
    | apply keeps_wf_ret | apply keeps_wf_gets | apply keeps_wf_attr
    | apply keeps_wf_assign_self | apply keeps_wf_assign_shape
    | apply keeps_wf_assign_data | apply keeps_wf_itemconfig
    | apply keeps_wf_create_text | apply keeps_wf_bbox
    | apply keeps_wf_shapes_getitem | apply keeps_wf_set_texts
    | apply keeps_wf_set_shapes | apply keeps_wf_delete
    | match goal with
      | |- keeps_wf (match ?x with _ => _ end) => destruct x
      | |- keeps_wf (let '(_, _) := ?x in _) => destruct x
      end ].

Lemma keeps_wf_save_text : keeps_wf save_text.
Proof. unfold save_text. keeps_wf. Qed.

Lemma keeps_wf_save_shape : keeps_wf save_shape.
Proof. unfold save_shape. keeps_wf. Qed.

Lemma keeps_wf_click_add bbox_of : keeps_wf (click_add bbox_of).
Proof.
  unfold click_add, add_shape, add_text, destroy. keeps_wf.
  all: first [apply keeps_wf_save_text | apply keeps_wf_save_shape].
Qed.

Lemma keeps_wf_cancel : keeps_wf cancel.
Proof. unfold cancel, shapes_pop, destroy. keeps_wf. Qed.

Lemma keeps_wf_apply_edit e : keeps_wf (apply_edit e).
Proof.
  destruct e; cbn [apply_edit];
    unfold choose_text_color, choose_fill_color, choose_border_color; keeps_wf.
Qed.

Lemma edits_wf es w : Canvas.wf (canvas w) → Canvas.wf (canvas (edits es w)).
Proof.
  revert w. induction es as [|e es IH]; intros w Hw; [done|].
  cbn. by apply IH, keeps_wf_apply_edit.
Qed.

(** ** Running methods *)

Lemma is_text_not_shape d : is_text d = true → is_shape d = false.
Proof.
  unfold is_text, is_shape. intros H%bool_decide_eq_true. by rewrite H.
Qed.

Lemma label_config_none l : label_config None None l = l.
Proof. by destruct l. Qed.

(** ** The font descriptor *)

(** C8. [make_font] returns the family and the size followed by the
    modifiers "bold", "italic", "underline" in that order, each present
    exactly when its flag is set; the tail is a sublist of the three
    modifiers in their fixed order, and Arial 12 with bold and underline set
    gives ["Arial", 12, "bold", "underline"]. *)
Theorem make_font_descriptor :
  (∀ d, make_font d
        = font_descriptor (Dialog.font d) (int (Dialog.font_size d))
            (flag_set (Dialog.bold d)) (flag_set (Dialog.italic d))
            (flag_set (Dialog.underline d)))
  ∧ (∀ d, take 2 (make_font d) = [PStr (Dialog.font d); PInt (Dialog.font_size d)]
          ∧ sublist (drop 2 (make_font d)) [PStr "bold"; PStr "italic"; PStr "underline"]
          ∧ (PStr "bold" ∈ drop 2 (make_font d) ↔ Dialog.bold d = 1)
          ∧ (PStr "italic" ∈ drop 2 (make_font d) ↔ Dialog.italic d = 1)
          ∧ (PStr "underline" ∈ drop 2 (make_font d) ↔ Dialog.underline d = 1))
  ∧ make_font example_dialog = [PStr "Arial"; PInt 12; PStr "bold"; PStr "underline"].
Proof.
  split; [|split]; [| |reflexivity].
  - intros d. unfold make_font, font_descriptor, style_modifiers, flag_set.
    repeat case_bool_decide; reflexivity.
  - intros d. unfold make_font, int.
    destruct (decide (Dialog.bold d = 1)) as [Hb|Hb],
             (decide (Dialog.italic d = 1)) as [Hi|Hi],
             (decide (Dialog.underline d = 1)) as [Hu|Hu];
      rewrite ?(bool_decide_eq_true_2 _ Hb), ?(bool_decide_eq_false_2 _ Hb),
              ?(bool_decide_eq_true_2 _ Hi), ?(bool_decide_eq_false_2 _ Hi),
              ?(bool_decide_eq_true_2 _ Hu), ?(bool_decide_eq_false_2 _ Hu);
      cbn; (split; [reflexivity|]); (split; [by repeat constructor|]);
      rewrite ?elem_of_cons, ?elem_of_nil; intuition congruence.
Qed.

(** ** Editing before a button is pressed *)

Lemma apply_edit_frame e w :
  heap (final (apply_edit e w)) = heap w ∧ canvas (final (apply_edit e w)) = canvas w.
Proof.
  destruct e; cbn [apply_edit]; try done;
    unfold choose_fill_color, choose_border_color; run.
  - cbn [Dialog.fill Dialog.set_fill_color]. by destruct (Dialog.fill (self w)).
  - cbn [Dialog.border Dialog.set_border_color]. by destruct (Dialog.border (self w)).
Qed.

Lemma edits_frame es w :
  heap (edits es w) = heap w ∧ canvas (edits es w) = canvas w.
Proof.
  revert w. induction es as [|e es IH]; intros w; [done|].
  cbn. destruct (IH (final (apply_edit e w))) as [-> ->]. apply apply_edit_frame.
Qed.

Lemma cancel_heap w : heap (final (cancel w)) = heap w.
Proof.
  unfold cancel, destroy, shapes_pop, shapes_getitem. run.
  destruct (is_shape (self w)); [|done]. run.
  destruct (Dialog.id (self w)) as [i|] eqn:Hid; [|done]. run.
  destruct (Canvas.shapes (canvas w) !! i) as [l|] eqn:Hl; [|done]. run.
  destruct (Shape.created (heap w l)); [done|].
  cbn [negb]. rewrite Hid. run. rewrite Hid. run.
  cbn [Canvas.shapes Canvas.delete Canvas.set_items]. by rewrite Hl.
Qed.

(** C6. Whatever the user edits and whichever colour prompts are answered
    or dismissed, after every prefix of the event sequence the heap (hence
    the annotation and its style record) and the canvas are what they were
    when the dialog opened; pressing Cancel afterwards does not write the
    heap either, so only [click_add] stores session values. *)
Theorem edits_never_touch_annotation :
  ∀ (es : list edit) (n : nat) (w : world),
    heap (edits (take n es) w) = heap w
    ∧ canvas (edits (take n es) w) = canvas w
    ∧ Shape.shape_data (heap (edits (take n es) w) (Dialog.shape (self w)))
      = Shape.shape_data (heap w (Dialog.shape (self w)))
    ∧ heap (final (cancel (edits es w))) = heap w.
Proof.
  intros es n w. destruct (edits_frame (take n es) w) as [Hh Hc].
  rewrite Hh, Hc, cancel_heap. repeat split. apply edits_frame.
Qed.

(** ** The colour prompts *)

(** C7, as stated, fails: dismissing the text-colour prompt replaces the
    staged colour "#ff0000" by [None]. *)
Lemma dismissed_prompt_loses_color :
  Dialog.text_color (self new_text_world) = Some "#ff0000"
  ∧ Dialog.text_color (self (final (choose_text_color (None, None) new_text_world)))
    ≠ Dialog.text_color (self new_text_world).
Proof. split; [reflexivity|discriminate]. Qed.

(** C7, amended. Each chooser stores the second component of the prompt's
    answer in its colour field, so a dismissed prompt, which answers
    [(None, None)], leaves [None] in the field; the swatch labels, whose
    [config] ignores [None], keep what they showed, and the two other colour
    fields are not touched. *)
Theorem dismissed_prompt_clears_color :
  ∀ (w : world) (answer : askcolor_result),
    let wt := final (choose_text_color answer w) in
    let wf := final (choose_fill_color answer w) in
    let wb := final (choose_border_color answer w) in
    let wt0 := final (choose_text_color (None, None) w) in
    let wf0 := final (choose_fill_color (None, None) w) in
    let wb0 := final (choose_border_color (None, None) w) in
    (Dialog.text_color (self wt) = answer.2
     ∧ Dialog.fill_color (self wf) = answer.2
     ∧ Dialog.border_color (self wb) = answer.2)
    ∧ (Dialog.text_color (self wt0) = None
       ∧ Dialog.fill_color (self wf0) = None
       ∧ Dialog.border_color (self wb0) = None)
    ∧ (Dialog.fill (self wf0) = Dialog.fill (self w)
       ∧ Dialog.border (self wb0) = Dialog.border (self w))
    ∧ (Dialog.fill_color (self wt0) = Dialog.fill_color (self w)
       ∧ Dialog.border_color (self wt0) = Dialog.border_color (self w)
       ∧ Dialog.text_color (self wf0) = Dialog.text_color (self w)
       ∧ Dialog.border_color (self wf0) = Dialog.border_color (self w)
       ∧ Dialog.text_color (self wb0) = Dialog.text_color (self w)
       ∧ Dialog.fill_color (self wb0) = Dialog.fill_color (self w)).
Proof.
  intros w answer. unfold choose_text_color, choose_fill_color, choose_border_color.
  run. cbn [Dialog.fill Dialog.border Dialog.set_fill_color Dialog.set_border_color].
  destruct (Dialog.fill (self w)) as [lf|] eqn:Hf,
           (Dialog.border (self w)) as [lb|] eqn:Hb;
    cbn; rewrite ?label_config_none; repeat split; congruence.
Qed.

(** ** Cancel *)

Lemma cancel_uncommitted w i l :
  is_shape (self w) = true →
  Dialog.id (self w) = Some i →
  Canvas.shapes (canvas w) !! i = Some l →
  Shape.created (heap w l) = false →
  cancel w
  = Ok tt (World (heap w)
             (Canvas.set_shapes (delete i (Canvas.shapes (canvas w)))
                (Canvas.delete i (canvas w)))
             (Dialog.set_destroyed true (self w))).
Proof.
  intros Hs Hid Hl Hc. unfold cancel, destroy, shapes_pop, shapes_getitem. run.
  rewrite Hs. run. rewrite Hid. run. rewrite Hl. run. rewrite Hc. cbn [negb].
  rewrite Hid. run. rewrite Hid. run.
  cbn [Canvas.shapes Canvas.delete Canvas.set_items]. by rewrite Hl.
Qed.

Lemma cancel_committed w i l :
  is_shape (self w) = true →
  Dialog.id (self w) = Some i →
  Canvas.shapes (canvas w) !! i = Some l →
  Shape.created (heap w l) = true →
  cancel w = Ok tt (World (heap w) (canvas w) (Dialog.set_destroyed true (self w))).
Proof.
  intros Hs Hid Hl Hc. unfold cancel, destroy, shapes_getitem. run.
  rewrite Hs. run. rewrite Hid. run. rewrite Hl. run. by rewrite Hc.
Qed.

Lemma cancel_not_shape w :
  is_shape (self w) = false →
  cancel w = Ok tt (World (heap w) (canvas w) (Dialog.set_destroyed true (self w))).
Proof. intros Hs. unfold cancel, destroy. run. by rewrite Hs. Qed.

(** C4. Cancelling a shape editor whose annotation, registered under the
    editor's id, has [created = false] returns normally, deletes the canvas
    element of that id and pops the id from the shapes registry: afterwards
    neither the display list nor the registry has an entry for the id, and
    any entry still pointing at the annotation is an older one under another
    key. The annotation object itself is not written; when it has no label
    (as every uncommitted shape this dialog has seen), neither its id nor
    its [text_id] names a canvas element any more. *)
Theorem cancel_uncommitted_shape_removes :
  ∀ (w : world) (i : Z),
    let d := self w in
    let l := Dialog.shape d in
    is_shape d = true →
    Dialog.id d = Some i →
    Canvas.shapes (canvas w) !! i = Some l →
    Shape.created (heap w l) = false →
    ∃ w', cancel w = Ok tt w'
      ∧ Canvas.items (canvas w') = delete i (Canvas.items (canvas w))
      ∧ Canvas.shapes (canvas w') = delete i (Canvas.shapes (canvas w))
      ∧ Canvas.items (canvas w') !! i = None
      ∧ Canvas.shapes (canvas w') !! i = None
      ∧ (∀ k, Canvas.shapes (canvas w') !! k = Some l →
              k ≠ i ∧ Canvas.shapes (canvas w) !! k = Some l)
      ∧ Canvas.texts (canvas w') = Canvas.texts (canvas w)
      ∧ heap w' = heap w
      ∧ (Shape.text_id (heap w l) = None →
         ∀ k, k = i ∨ Shape.text_id (heap w' l) = Some k →
              Canvas.items (canvas w') !! k = None)
      ∧ Dialog.destroyed (self w') = true.
Proof.
  intros w i d l Hs Hid Hl Hc. eexists. split; [by eapply cancel_uncommitted|].
  cbn. rewrite !lookup_delete_eq. split_and!; try done.
  - intros k Hk. destruct (decide (k = i)) as [->|Hne].
    + by rewrite lookup_delete_eq in Hk.
    + by rewrite lookup_delete_ne in Hk.
  - intros Hn k [->|Hk]; [apply lookup_delete_eq|congruence].
Qed.

Lemma cancel_uncommitted_shape_removes_witness :
  ∃ w', cancel new_shape_world = Ok tt w'
    ∧ Canvas.items (canvas w') = delete 1 (Canvas.items (canvas new_shape_world))
    ∧ Canvas.shapes (canvas w') = delete 1 (Canvas.shapes (canvas new_shape_world))
    ∧ Canvas.items (canvas w') !! 1 = None
    ∧ Canvas.shapes (canvas w') !! 1 = None
    ∧ heap w' = heap new_shape_world.
Proof.
  destruct (cancel_uncommitted_shape_removes new_shape_world 1)
    as (w' & Hrun & Hitems & Hshapes & Hi & Hs & _ & _ & Hheap & _).
  - reflexivity.
  - reflexivity.
  - reflexivity.
  - reflexivity.
  - exists w'. split_and!; assumption.
Defined.

(** C5. Cancelling a shape editor whose registered annotation has
    [created = true], or a text editor, returns normally and changes
    neither the heap (the annotation, its style record) nor the canvas (its
    elements and both registries); the dialog keeps its staged values and is
    only closed. *)
Theorem cancel_otherwise_changes_nothing :
  ∀ (w : world),
    let d := self w in
    let l := Dialog.shape d in
    (is_shape d = true
     ∧ ∃ i, Dialog.id d = Some i
            ∧ Canvas.shapes (canvas w) !! i = Some l
            ∧ Shape.created (heap w l) = true)
    ∨ is_text d = true →
    ∃ w', cancel w = Ok tt w'
      ∧ heap w' = heap w
      ∧ canvas w' = canvas w
      ∧ self w' = Dialog.set_destroyed true d
      ∧ Shape.shape_data (heap w' l) = Shape.shape_data (heap w l)
      ∧ Shape.created (heap w' l) = Shape.created (heap w l).
Proof.
  intros w d l [(Hs & i & Hid & Hl & Hc)|Ht]; eexists.
  - split; [by eapply cancel_committed|]. done.
  - split; [by apply cancel_not_shape, is_text_not_shape|]. done.
Qed.

Lemma cancel_otherwise_changes_nothing_witness :
  ∃ w', cancel labelled_shape_world = Ok tt w'
    ∧ heap w' = heap labelled_shape_world
    ∧ canvas w' = canvas labelled_shape_world
    ∧ self w' = Dialog.set_destroyed true (self labelled_shape_world)
    ∧ Shape.shape_data (heap w' 1%positive) = example_data
    ∧ Shape.created (heap w' 1%positive) = true.
Proof.
  apply (cancel_otherwise_changes_nothing labelled_shape_world).
  left. split; [reflexivity|]. exists 1. split_and!; reflexivity.
Defined.

(** ** Commit *)

Lemma save_text_spec (w : world) :
  let d := self w in
  let l := Dialog.shape d in
  ∃ w', save_text w = Ok tt w'
    ∧ self w' = d
    ∧ canvas w' = canvas w
    ∧ heap w' l
      = Shape.set_shape_data (text_saved d (Shape.shape_data (heap w l))) (heap w l)
    ∧ (∀ l', l' ≠ l → heap w' l' = heap w l').
Proof.
  intros d l. subst d l. unfold save_text. run. eexists. split; [reflexivity|].
  cbn [self heap canvas set_heap]. rewrite !fn_lookup_insert. simpl_records.
  split_and!; try done. intros l' Hl'. by rewrite !fn_lookup_insert_ne.
Qed.

Lemma save_shape_spec (w : world) :
  let d := self w in
  let l := Dialog.shape d in
  ∃ w', save_shape w = Ok tt w'
    ∧ self w' = d
    ∧ canvas w' = canvas w
    ∧ heap w' l
      = Shape.set_shape_data (shape_saved d (Shape.shape_data (heap w l))) (heap w l)
    ∧ (∀ l', l' ≠ l → heap w' l' = heap w l').
Proof.
  intros d l. subst d l. unfold save_shape. run. eexists. split; [reflexivity|].
  cbn [self heap canvas set_heap]. rewrite !fn_lookup_insert. simpl_records.
  split_and!; try done. intros l' Hl'. by rewrite !fn_lookup_insert_ne.
Qed.

Lemma shape_saved_text_saved d data : shape_saved d (text_saved d data) = staged d.
Proof. reflexivity. Qed.

Section Commit.
Variable bbox_of : Canvas.item → option (Z * Z * Z * Z).

Lemma commit_text_fresh (w : world) :
  let d := self w in
  let l := Dialog.shape d in
  let c := canvas w in
  let tid := Canvas.next_id c in
  is_text d = true →
  Shape.text_id (heap w l) = None →
  ∃ w' o,
    click_add bbox_of w = Ok tt w'
    ∧ canvas w'
      = Canvas.set_texts (<[tid := l]> (Canvas.texts c))
          (Canvas.set_items
             (<[tid := Canvas.Item Canvas.text
                         [Shape.x0 (heap w l); Shape.y0 (heap w l)] o]>
                (Canvas.items c))
             (Canvas.set_next_id (tid + 1) c))
    ∧ (o !! "text" = Some (TkStr (Dialog.shape_text d))
       ∧ o !! "fill" = TkStr <$> Dialog.text_color d
       ∧ o !! "font" = Some (TkFont (make_font d))
       ∧ o !! "tags" = Some (TkStr "text"))
    ∧ self w' = Dialog.set_destroyed true (Dialog.set_id (Some tid) d)
    ∧ heap w' l
      = Shape.Build tid (Shape.x0 (heap w l)) (Shape.y0 (heap w l)) (Some tid) true
          (text_saved d (Shape.shape_data (heap w l)))
    ∧ (∀ l', l' ≠ l → heap w' l' = heap w l').
Proof.
  intros d l c tid. subst d l c tid. intros Ht Hn. unfold click_add. run.
  rewrite (is_text_not_shape _ Ht), Ht.
  unfold add_text. run. rewrite Hn.
  unfold canvas_create_text.
  destruct (create_text_label (self w) (Dialog.shape_text (self w)) (make_font (self w))
              (TkStr "text") (Shape.x0 (heap w (Dialog.shape (self w))))
              (Shape.y0 (heap w (Dialog.shape (self w)))) (canvas w))
    as (o & -> & Ho).
  run. step_save save_text save_text_spec w2.
  unfold destroy. run. eexists _, o. split; [reflexivity|].
  cbn [self heap canvas set_self]. rewrite Hself, Hcanvas, Hheap.
  rewrite !fn_lookup_insert. simpl_records.
  split_and!; try done; try apply Ho.
  intros l' Hl'. rewrite Hframe by done. by rewrite !fn_lookup_insert_ne.
Qed.

Lemma commit_text_existing (w : world) (t : Z) :
  let d := self w in
  let l := Dialog.shape d in
  is_text d = true →
  Shape.text_id (heap w l) = Some t →
  ∃ w',
    click_add bbox_of w = Ok tt w'
    ∧ canvas w' = canvas w
    ∧ self w' = Dialog.set_destroyed true d
    ∧ heap w' l
      = Shape.set_shape_data (text_saved d (Shape.shape_data (heap w l))) (heap w l)
    ∧ (∀ l', l' ≠ l → heap w' l' = heap w l').
Proof.
  intros d l. subst d l. intros Ht Hn. unfold click_add. run.
  rewrite (is_text_not_shape _ Ht), Ht.
  unfold add_text. run. rewrite Hn. run.
  step_save save_text save_text_spec w2.
  unfold destroy. run. eexists. split; [reflexivity|].
  cbn [self heap canvas set_self]. rewrite Hself, Hcanvas, Hheap. done.
Qed.

Lemma commit_shape_fresh (w : world) (i : Z) (bb : Z * Z * Z * Z) :
  let d := self w in
  let l := Dialog.shape d in
  let c1 := (Canvas.itemconfig i (shape_kw d) (canvas w)).1 in
  let tid := Canvas.next_id (canvas w) in
  is_shape d = true →
  Dialog.id d = Some i →
  (∀ it, Canvas.items (canvas w) !! i = Some it → Canvas.type it ≠ Canvas.text) →
  Canvas.bbox bbox_of i c1 = Some bb →
  Shape.text_id (heap w l) = None →
  ∃ w' o,
    click_add bbox_of w = Ok tt w'
    ∧ canvas w'
      = Canvas.set_items
          (<[tid := Canvas.Item Canvas.text
                      [(label_anchor bb (Dialog.font_size d)).1;
                       (label_anchor bb (Dialog.font_size d)).2] o]>
             (Canvas.items c1))
          (Canvas.set_next_id (tid + 1) c1)
    ∧ (o !! "text" = Some (TkStr (Dialog.shape_text d))
       ∧ o !! "fill" = TkStr <$> Dialog.text_color d
       ∧ o !! "font" = Some (TkFont (make_font d))
       ∧ o !! "tags" = Some (TkStr "shapetext"))
    ∧ self w' = Dialog.set_destroyed true d
    ∧ heap w' l
      = Shape.Build (Shape.id (heap w l)) (Shape.x0 (heap w l)) (Shape.y0 (heap w l))
          (Some tid) true (staged d)
    ∧ (∀ l', l' ≠ l → heap w' l' = heap w l').
Proof.
  intros d l c1 tid. subst d l. intros Hs Hid Hty Hbb Hn.
  assert (Hc1 : Canvas.itemconfig i (shape_kw (self w)) (canvas w) = (c1, None)).
  { subst c1. destruct (Canvas.items (canvas w) !! i) as [it|] eqn:Hit.
    - destruct (itemconfig_shape (self w) i it _ Hit (Hty _ eq_refl)) as [o ->]. done.
    - by rewrite itemconfig_absent. }
  assert (Hnext : Canvas.next_id c1 = tid).
  { subst c1 tid. unfold Canvas.itemconfig.
    destruct (Canvas.items (canvas w) !! i); [|done].
    by destruct (Canvas.configure _ _). }
  clearbody c1 tid.
  unfold click_add. run. rewrite Hs. unfold add_shape. run. rewrite Hid.
  unfold canvas_itemconfig, canvas_bbox. run.
  rewrite Hc1. run. rewrite Hid. run. rewrite Hbb. run.
  destruct (label_anchor bb (int (Dialog.font_size (self w)))) as [_x _y] eqn:Ha.
  run. rewrite Hn. unfold canvas_create_text. run.
  destruct (create_text_label (self w) (Dialog.shape_text (self w))
              (make_font (self w)) (TkStr "shapetext") _x _y c1) as (o & -> & Ho).
  run. step_save save_text save_text_spec w2.
  step_save save_shape save_shape_spec w3.
  unfold destroy. run. eexists _, o. split; [reflexivity|].
  cbn [self heap canvas set_self].
  rewrite Hself in Hself0, Hheap0, Hframe0.
  rewrite Hself0, Hcanvas0, Hcanvas, Hheap0, Hheap.
  rewrite !fn_lookup_insert. simpl_records.
  unfold int in Ha. rewrite Ha, Hnext. cbn [fst snd].
  split_and!; try done; try apply Ho.
  intros l' Hl'. rewrite Hframe0, Hframe by done.
  by rewrite !fn_lookup_insert_ne.
Qed.

End Commit.


(** ** Properties of commit *)



Lemma make_font_is_descriptor d :
  make_font d
  = font_descriptor (Dialog.font d) (Dialog.font_size d)
      (flag_set (Dialog.bold d)) (flag_set (Dialog.italic d))
      (flag_set (Dialog.underline d)).
Proof.
  unfold make_font, font_descriptor, style_modifiers, flag_set, int.
  repeat case_bool_decide; reflexivity.
Qed.

(** C2. Committing a text editor whose annotation has no canvas element
    returns normally and adds exactly one element to the display list: a
    text element under the next, so far unused, identifier, placed at the
    annotation's origin and showing the session's text and colour in the
    session's font, that is the family and size of the form followed by the
    modifiers whose boxes are checked; the annotation is bound to that
    element and marked created. *)
Theorem commit_text_creates_element :
  ∀ (bbox_of : Canvas.item → option (Z * Z * Z * Z)) (w : world),
    let d := self w in
    let l := Dialog.shape d in
    let c := canvas w in
    let tid := Canvas.next_id c in
    is_text d = true →
    Shape.text_id (heap w l) = None →
    Canvas.wf c →
    ∃ w' it, click_add bbox_of w = Ok tt w'
      ∧ Canvas.items c !! tid = None
      ∧ Canvas.items (canvas w') = <[tid := it]> (Canvas.items c)
      ∧ size (Canvas.items (canvas w')) = S (size (Canvas.items c))
      ∧ Canvas.type it = Canvas.text
      ∧ Canvas.coords it = [Shape.x0 (heap w l); Shape.y0 (heap w l)]
      ∧ Canvas.options it !! "text" = Some (TkStr (Dialog.shape_text d))
      ∧ Canvas.options it !! "fill" = TkStr <$> Dialog.text_color d
      ∧ Canvas.options it !! "font"
        = Some (TkFont (font_descriptor (Dialog.font d) (Dialog.font_size d)
                          (flag_set (Dialog.bold d)) (flag_set (Dialog.italic d))
                          (flag_set (Dialog.underline d))))
      ∧ Shape.text_id (heap w' l) = Some tid
      ∧ Shape.id (heap w' l) = tid
      ∧ Shape.created (heap w' l) = true.
Proof.
  intros bbox_of w d l c tid. subst d l c tid. intros Ht Hn Hwf.
  destruct (commit_text_fresh bbox_of w Ht Hn)
    as (w' & o & Hrun & Hc & (Ho1 & Ho2 & Ho3 & _) & _ & Hl & _).
  pose proof (wf_next_id_fresh _ Hwf) as Hfresh.
  rewrite make_font_is_descriptor in Ho3.
  eexists w', _. rewrite Hc, Hl. cbn.
  split_and!; try done. by rewrite map_size_insert_None.
Qed.

Lemma commit_text_creates_element_witness :
  ∃ w' it, click_add example_bbox_of new_text_world = Ok tt w'
    ∧ Canvas.items (canvas new_text_world) !! 2 = None
    ∧ Canvas.items (canvas w') = <[2 := it]> (Canvas.items (canvas new_text_world))
    ∧ size (Canvas.items (canvas w')) = 2%nat
    ∧ Canvas.type it = Canvas.text
    ∧ Canvas.coords it = [30; 35]%Q
    ∧ Canvas.options it !! "text" = Some (TkStr "lan")
    ∧ Canvas.options it !! "fill" = Some (TkStr "#ff0000")
    ∧ Canvas.options it !! "font"
      = Some (TkFont [PStr "Arial"; PInt 10; PStr "bold"; PStr "underline"])
    ∧ Shape.text_id (heap w' 2%positive) = Some 2
    ∧ Shape.id (heap w' 2%positive) = 2
    ∧ Shape.created (heap w' 2%positive) = true.
Proof.
  apply (commit_text_creates_element example_bbox_of new_text_world).
  - reflexivity.
  - reflexivity.
  - unfold Canvas.wf. compute_done.
Defined.

(** C3. Committing a text editor whose annotation already has a canvas
    element returns normally and leaves the whole canvas, that element
    included, as it was, while the seven text fields of the style record
    take the session's values (the three shape fields stay). *)
Theorem commit_text_keeps_existing_element :
  ∀ (bbox_of : Canvas.item → option (Z * Z * Z * Z)) (w : world) (t : Z),
    let d := self w in
    let l := Dialog.shape d in
    is_text d = true →
    Shape.text_id (heap w l) = Some t →
    ∃ w', click_add bbox_of w = Ok tt w'
      ∧ canvas w' = canvas w
      ∧ Canvas.items (canvas w') !! t = Canvas.items (canvas w) !! t
      ∧ Shape.shape_data (heap w' l) = text_saved d (Shape.shape_data (heap w l))
      ∧ (let data := Shape.shape_data (heap w' l) in
         AnnotationData.text data = Dialog.shape_text d
         ∧ AnnotationData.font data = Dialog.font d
         ∧ AnnotationData.font_size data = Dialog.font_size d
         ∧ AnnotationData.bold data = Dialog.bold d
         ∧ AnnotationData.italic data = Dialog.italic d
         ∧ AnnotationData.underline data = Dialog.underline d
         ∧ AnnotationData.text_color data = Dialog.text_color d)
      ∧ Shape.text_id (heap w' l) = Some t.
Proof.
  intros bbox_of w t d l. subst d l. intros Ht Hn.
  destruct (commit_text_existing bbox_of w t Ht Hn) as (w' & Hrun & Hc & _ & Hl & _).
  exists w'. rewrite Hc, Hl. cbn. by split_and!.
Qed.

Lemma commit_text_keeps_existing_element_witness :
  ∃ w', click_add example_bbox_of old_text_world = Ok tt w'
    ∧ canvas w' = canvas old_text_world
    ∧ Canvas.items (canvas w') !! 2 = Some example_label
    ∧ Shape.shape_data (heap w' 2%positive)
      = AnnotationData.Build "lan" "Arial" 10 (Some "#ff0000") (Some "#CFCFFF")
          (Some "#000000") 1 1 0 1
    ∧ (AnnotationData.text (Shape.shape_data (heap w' 2%positive)) = "lan"
       ∧ AnnotationData.font (Shape.shape_data (heap w' 2%positive)) = "Arial"
       ∧ AnnotationData.font_size (Shape.shape_data (heap w' 2%positive)) = 10
       ∧ AnnotationData.bold (Shape.shape_data (heap w' 2%positive)) = 1
       ∧ AnnotationData.italic (Shape.shape_data (heap w' 2%positive)) = 0
       ∧ AnnotationData.underline (Shape.shape_data (heap w' 2%positive)) = 1
       ∧ AnnotationData.text_color (Shape.shape_data (heap w' 2%positive))
         = Some "#ff0000")
    ∧ Shape.text_id (heap w' 2%positive) = Some 2.
Proof.
  apply (commit_text_keeps_existing_element example_bbox_of old_text_world 2).
  - reflexivity.
  - reflexivity.
Defined.

(** C10. When a text commit creates the canvas element, the annotation's
    [text_id] and [id] and the dialog's [id] all become the new element's
    identifier, the element exists under it, and the texts registry maps
    that identifier to this very annotation. *)
Theorem commit_text_rebinds_identifier :
  ∀ (bbox_of : Canvas.item → option (Z * Z * Z * Z)) (w : world),
    let d := self w in
    let l := Dialog.shape d in
    let tid := Canvas.next_id (canvas w) in
    is_text d = true →
    Shape.text_id (heap w l) = None →
    ∃ w', click_add bbox_of w = Ok tt w'
      ∧ Shape.text_id (heap w' l) = Some tid
      ∧ Shape.id (heap w' l) = tid
      ∧ Dialog.id (self w') = Some tid
      ∧ Dialog.shape (self w') = l
      ∧ (∃ it, Canvas.items (canvas w') !! tid = Some it
               ∧ Canvas.type it = Canvas.text)
      ∧ Canvas.texts (canvas w') !! tid = Some l
      ∧ heap w' <$> Canvas.texts (canvas w') !! tid = Some (heap w' l).
Proof.
  intros bbox_of w d l tid. subst d l tid. intros Ht Hn.
  destruct (commit_text_fresh bbox_of w Ht Hn)
    as (w' & o & Hrun & Hc & _ & Hs & Hl & _).
  exists w'. rewrite Hc, Hl, Hs. cbn.
  rewrite !lookup_insert_eq. split_and!; try done.
  - eauto.
  - cbn. by rewrite Hl.
Qed.

Lemma commit_text_rebinds_identifier_witness :
  ∃ w', click_add example_bbox_of new_text_world = Ok tt w'
    ∧ Shape.text_id (heap w' 2%positive) = Some 2
    ∧ Shape.id (heap w' 2%positive) = 2
    ∧ Dialog.id (self w') = Some 2
    ∧ Dialog.shape (self w') = 2%positive
    ∧ (∃ it, Canvas.items (canvas w') !! 2 = Some it ∧ Canvas.type it = Canvas.text)
    ∧ Canvas.texts (canvas w') !! 2 = Some 2%positive
    ∧ heap w' <$> Canvas.texts (canvas w') !! 2 = Some (heap w' 2%positive).
Proof.
  apply (commit_text_rebinds_identifier example_bbox_of new_text_world).
  - reflexivity.
  - reflexivity.
Defined.

(** ** The label anchor

    Binary64 makes no rounding error on the integers and half-integers of
    the two lines of [add_shape]: rounding a mantissa whose bits beyond the
    53rd are zero returns it unchanged. *)

Lemma digits2_pos_size p : SpecFloat.digits2_pos p = Pos.size p.
Proof. induction p; cbn; congruence. Qed.

Lemma digits2_pos_bound p (k : Z) :
  0 ≤ k → Z.pos p < 2 ^ k → Z.pos (SpecFloat.digits2_pos p) ≤ k.
Proof.
  intros Hk Hp. rewrite digits2_pos_size.
  destruct (Z.le_gt_cases (Z.pos (Pos.size p)) k) as [?|Hgt]; [done|].
  pose proof (Pos.size_le p) as Hle.
  apply Pos2Z.pos_le_pos in Hle. rewrite Pos2Z.inj_pow in Hle.
  assert (2 ^ (k + 1) ≤ 2 ^ Z.pos (Pos.size p)) by (apply Z.pow_le_mono_r; lia).
  rewrite Z.pow_add_r in * by lia. lia.
Qed.

Lemma pos_iter_xO_digits n q :
  SpecFloat.digits2_pos (Pos.iter xO q n) = (SpecFloat.digits2_pos q + n)%positive.
Proof.
  induction n as [|n IH] using Pos.peano_ind.
  - cbn. lia.
  - rewrite Pos.iter_succ. cbn. rewrite IH. lia.
Qed.

Lemma pos_iter_xO_value n q : Z.pos (Pos.iter xO q n) = Z.pos q * 2 ^ Z.pos n.
Proof.
  induction n as [|n IH] using Pos.peano_ind.
  - cbn. lia.
  - rewrite Pos.iter_succ, Pos2Z.inj_xO, IH, Pos2Z.inj_succ. rewrite Z.pow_succ_r; [ring|done].
Qed.

Lemma pos_shiftl_value q (k : Z) :
  0 ≤ k → Z.pos (Pos.shiftl q (Z.to_N k)) = Z.pos q * 2 ^ k.
Proof.
  intros Hk. destruct k as [|k|k]; [rewrite Z.pow_0_r, Z.mul_1_r; reflexivity| |lia].
  cbn. apply pos_iter_xO_value.
Qed.

Lemma iter_shr_1_exact n q :
  SpecFloat.iter_pos SpecFloat.shr_1 n
    (SpecFloat.Build_shr_record (Z.pos (Pos.iter xO q n)) false false)
  = SpecFloat.Build_shr_record (Z.pos q) false false.
Proof.
  revert q. induction n as [n IH|n IH|]; intros q; cbn.
  - by rewrite !IH.
  - by rewrite !IH.
  - done.
Qed.

Lemma shr_fexp_exact (m : positive) (e : Z) :
  Z.pos (SpecFloat.digits2_pos m) = 53 → -1074 ≤ e →
  SpecFloat.shr_fexp 53 1024 (Z.pos m) e SpecFloat.loc_Exact
  = (SpecFloat.Build_shr_record (Z.pos m) false false, e).
Proof.
  intros Hd He. unfold SpecFloat.shr_fexp, SpecFloat.fexp, SpecFloat.emin. cbn.
  rewrite Hd. replace (Z.max (53 + e - 53) (3 - 1024 - 53) - e) with 0 by lia. done.
Qed.

(** Rounding a mantissa whose bits beyond the 53rd are zero changes
    nothing. *)
Lemma binary_round_aux_exact s (m n : positive) (j e : Z) :
  0 ≤ j →
  Z.pos m = Z.pos n * 2 ^ j →
  Z.pos (SpecFloat.digits2_pos n) ≤ 53 →
  53 ≤ Z.pos (SpecFloat.digits2_pos n) + j →
  -1074 ≤ e + j - (53 - Z.pos (SpecFloat.digits2_pos n)) ≤ 971 →
  SpecFloat.binary_round_aux 53 1024 s (Z.pos m) e SpecFloat.loc_Exact
  = normal s n (e + j).
Proof.
  intros Hj Hm Hn Hnj He.
  remember (Z.pos (SpecFloat.digits2_pos n)) as d eqn:Hd.
  remember (53 - d) as k eqn:Hk. remember (d + j - 53) as sh eqn:Hsh.
  assert (Hq : Z.pos m = Z.pos (Pos.shiftl n (Z.to_N k)) * 2 ^ sh).
  { rewrite pos_shiftl_value, Hm by lia. rewrite <- Z.mul_assoc, <- Z.pow_add_r by lia.
    f_equal. f_equal. lia. }
  assert (Hdq : Z.pos (SpecFloat.digits2_pos (Pos.shiftl n (Z.to_N k))) = 53).
  { destruct k as [|p|p]; unfold Pos.shiftl, Z.to_N; [lia| |lia].
    rewrite pos_iter_xO_digits. lia. }
  unfold normal. rewrite <- Hd, <- Hk.
  remember (Pos.shiftl n (Z.to_N k)) as q eqn:Hq0.
  unfold SpecFloat.binary_round_aux.
  assert (Hshr : SpecFloat.shr_fexp 53 1024 (Z.pos m) e SpecFloat.loc_Exact
                 = (SpecFloat.Build_shr_record (Z.pos q) false false, e + sh)).
  { destruct sh as [|p|p]; [| |lia].
    - assert (m = q) as -> by lia. rewrite Z.add_0_r. apply shr_fexp_exact; [done|lia].
    - assert (m = Pos.iter xO q p) as ->.
      { apply Pos2Z.inj. by rewrite pos_iter_xO_value. }
      unfold SpecFloat.shr_fexp, SpecFloat.fexp, SpecFloat.emin. cbn [SpecFloat.Zdigits2].
      rewrite pos_iter_xO_digits, Pos2Z.inj_add, Hdq. cbn [SpecFloat.shr_record_of_loc].
      replace (Z.max (53 + Z.pos p + e - 53) (3 - 1024 - 53) - e) with (Z.pos p) by lia.
      cbn [SpecFloat.shr]. by rewrite iter_shr_1_exact. }
  rewrite Hshr. cbn [SpecFloat.shr_m SpecFloat.loc_of_shr_record SpecFloat.round_nearest_even].
  rewrite shr_fexp_exact by (done || lia). cbn [SpecFloat.shr_m].
  replace (e + sh) with (e + j - k) by lia.
  destruct (Z.leb_spec (e + j - k) (1024 - 53)); [done|lia].
Qed.

Lemma binary_round_exact s (m n : positive) (j e : Z) :
  0 ≤ j →
  Z.pos m = Z.pos n * 2 ^ j →
  Z.pos (SpecFloat.digits2_pos n) ≤ 53 →
  -1074 ≤ e + j - (53 - Z.pos (SpecFloat.digits2_pos n)) ≤ 971 →
  SpecFloat.binary_round 53 1024 s m e = normal s n (e + j).
Proof.
  intros Hj Hm Hn He.
  assert (Hd : Z.pos (SpecFloat.digits2_pos m) = Z.pos (SpecFloat.digits2_pos n) + j).
  { destruct j as [|p|p]; [| |lia].
    - assert (m = n) as -> by lia. lia.
    - assert (m = Pos.iter xO n p) as ->.
      { apply Pos2Z.inj. by rewrite pos_iter_xO_value. }
      rewrite pos_iter_xO_digits. lia. }
  unfold SpecFloat.binary_round, SpecFloat.shl_align, SpecFloat.fexp, SpecFloat.emin.
  rewrite Hd. remember (Z.pos (SpecFloat.digits2_pos n)) as d eqn:Hd0.
  destruct (Z.max (d + j + e - 53) (3 - 1024 - 53) - e) as [|p|p] eqn:Hsh.
  - rewrite (binary_round_aux_exact s m n j e) by lia. done.
  - rewrite (binary_round_aux_exact s m n j e) by lia. done.
  - pose proof (binary_round_aux_exact s (Pos.iter xO m p) n (j + Z.pos p)
                  (Z.max (d + j + e - 53) (3 - 1024 - 53))) as H.
    rewrite <- Hd0 in H. rewrite H.
    + f_equal. lia.
    + lia.
    + rewrite pos_iter_xO_value, Hm, Z.pow_add_r by lia. ring.
    + done.
    + lia.
    + lia.
Qed.

Lemma digits2_pos_lower p (k : Z) :
  0 ≤ k → 2 ^ k ≤ Z.pos p → k < Z.pos (SpecFloat.digits2_pos p).
Proof.
  intros Hk Hp. rewrite digits2_pos_size.
  pose proof (Pos.size_gt p) as Hgt.
  apply Pos2Z.pos_lt_pos in Hgt. rewrite Pos2Z.inj_pow in Hgt.
  apply (Z.pow_lt_mono_r_iff 2); lia.
Qed.

Lemma binary_normalize_exact (m n j e : Z) :
  0 ≤ j →
  m = n * 2 ^ j →
  Z.abs n < 2 ^ 53 →
  -1074 ≤ e + j - 53 → e + j ≤ 971 →
  SpecFloat.binary_normalize 53 1024 m e false = double n (e + j).
Proof.
  intros Hj Hm Hn He1 He2.
  assert (0 < 2 ^ j) by (apply Z.pow_pos_nonneg; lia).
  destruct n as [|p|p].
  - subst m. done.
  - destruct m as [|q|q]; [lia| |lia]. cbn [SpecFloat.binary_normalize double].
    pose proof (digits2_pos_bound p 53 ltac:(lia) ltac:(lia)).
    apply binary_round_exact; [done|done|done|lia].
  - destruct m as [|q|q]; [lia|lia|]. cbn [SpecFloat.binary_normalize double].
    pose proof (digits2_pos_bound p 53 ltac:(lia) ltac:(lia)).
    apply binary_round_exact; [done|lia|done|lia].
Qed.

(** [float(n)] is exact on integers of at most 53 bits. *)
Lemma float_exact n : Z.abs n < 2 ^ 53 → float n = double n 0.
Proof.
  intros Hn. unfold float.
  rewrite (binary_normalize_exact n n 0 0) by (rewrite ?Z.pow_0_r; lia). done.
Qed.

Lemma normal_mantissa s n e :
  Z.pos (SpecFloat.digits2_pos n) ≤ 53 →
  ∃ m k, normal s n e = SpecFloat.S754_finite s m (e - k)
         ∧ 0 ≤ k ∧ k = 53 - Z.pos (SpecFloat.digits2_pos n)
         ∧ Z.pos m = Z.pos n * 2 ^ k.
Proof.
  intros Hd. eexists _, _. split; [reflexivity|].
  split; [lia|]. split; [done|]. apply pos_shiftl_value. lia.
Qed.

(** [1.5 * float(n)] is exact. *)
Lemma SFmul_1_5_exact n :
  Z.abs n < 2 ^ 51 →
  SpecFloat.SFmul 53 1024 float_1_5 (double n 0) = double (3 * n) (-1).
Proof.
  intros Hn. destruct n as [|p|p]; [done| |].
  all: pose proof (digits2_pos_bound p 51 ltac:(lia) ltac:(lia)) as Hd.
  all: destruct (normal_mantissa false p 0 ltac:(lia)) as (m & k & Hm & Hk & Hkd & Hv).
  all: cbn [double Z.mul Pos.mul].
  all: unfold normal in Hm; injection Hm as Hm1 Hm2.
  all: unfold normal at 1; rewrite Hm1, Hm2.
  all: unfold float_1_5; cbn [SpecFloat.SFmul xorb].
  all: pose proof (digits2_pos_bound (3 * p) 53 ltac:(lia) ltac:(lia)) as Hd3.
  all: pose proof (digits2_pos_lower (3 * p) 1 ltac:(lia) ltac:(lia)) as Hl3.
  all: rewrite (binary_round_aux_exact _ _ (3 * p) (51 + k)); [f_equal; lia|lia| |done|lia|lia].
  all: rewrite Pos2Z.inj_mul, Hv, Z.pow_add_r by lia; change (2 ^ 51) with 2251799813685248; lia.
Qed.

Lemma shl_align_value m e e' :
  e' ≤ e → Z.pos (SpecFloat.shl_align m e e').1 = Z.pos m * 2 ^ (e - e').
Proof.
  intros He. unfold SpecFloat.shl_align.
  destruct (e' - e) as [|p|p] eqn:Hp; [|lia|].
  - replace (e - e') with 0 by lia. cbn. lia.
  - replace (e - e') with (Z.pos p) by lia. cbn. apply pos_iter_xO_value.
Qed.

Lemma normal_twice s n e :
  Z.pos n < 2 ^ 52 → normal s n e = normal s (2 * n) (e - 1).
Proof.
  intros Hn. pose proof (digits2_pos_bound n 52 ltac:(lia) ltac:(lia)) as Hd.
  unfold normal. change (2 * n)%positive with (n~0)%positive.
  change (SpecFloat.digits2_pos n~0) with (Pos.succ (SpecFloat.digits2_pos n)).
  rewrite Pos2Z.inj_succ.
  f_equal; [|lia].
  apply Pos2Z.inj. rewrite !pos_shiftl_value by lia.
  change (Z.pos n~0) with (2 * Z.pos n).
  replace (53 - Z.pos (SpecFloat.digits2_pos n))
    with (Z.succ (53 - Z.succ (Z.pos (SpecFloat.digits2_pos n)))) by lia.
  rewrite Z.pow_succ_r by lia. ring.
Qed.

Lemma SFadd_finite_exact (sa : bool) ma ea (sb : bool) mb eb (t j : Z) :
  0 ≤ j →
  (if sa then Z.neg ma else Z.pos ma) * 2 ^ (ea - Z.min ea eb)
  + (if sb then Z.neg mb else Z.pos mb) * 2 ^ (eb - Z.min ea eb) = t * 2 ^ j →
  Z.abs t < 2 ^ 53 →
  -1074 ≤ Z.min ea eb + j - 53 → Z.min ea eb + j ≤ 971 →
  SpecFloat.SFadd 53 1024 (SpecFloat.S754_finite sa ma ea) (SpecFloat.S754_finite sb mb eb)
  = double t (Z.min ea eb + j).
Proof.
  intros Hj Ht Hb He1 He2. cbn [SpecFloat.SFadd].
  set (ez := Z.min ea eb) in *.
  apply binary_normalize_exact; [done| |done|done|done].
  assert (∀ (s : bool) m, SpecFloat.cond_Zopp s (Z.pos m) = if s then Z.neg m else Z.pos m)
    as Hc by (by intros []).
  rewrite !Hc.
  assert (∀ (s : bool) m ex, ez ≤ ex →
            (if s then Z.neg (SpecFloat.shl_align m ex ez).1
             else Z.pos (SpecFloat.shl_align m ex ez).1)
            = (if s then Z.neg m else Z.pos m) * 2 ^ (ex - ez)) as Hs.
  { intros s m ex Hex. pose proof (shl_align_value m ex ez Hex) as Hv.
    destruct s; [|done]. rewrite <- !Pos2Z.opp_pos, Hv. ring. }
  rewrite !Hs by lia. done.
Qed.

(** [float(a) + x] is exact when [x] is a small half-integer. *)
Lemma SFadd_exact a b :
  Z.abs a < 2 ^ 50 → Z.abs b < 2 ^ 51 →
  SpecFloat.SFadd 53 1024 (double a 0) (double b (-1)) = double (2 * a + b) (-1).
Proof.
  intros Ha Hb.
  assert (∀ s p, Z.pos p < 2 ^ 52 → ∀ e, ∃ m k,
            normal s p e = SpecFloat.S754_finite s m (e - k)
            ∧ 0 ≤ k ≤ 52 ∧ Z.pos m = Z.pos p * 2 ^ k) as Hnorm.
  { intros s p Hp e.
    pose proof (digits2_pos_bound p 52 ltac:(lia) ltac:(lia)).
    destruct (normal_mantissa s p e ltac:(lia)) as (m & k & ? & ? & ? & ?).
    exists m, k. split_and!; [done|lia|lia|done]. }
  destruct a as [|pa|pa], b as [|pb|pb]; cbn [double]; try done.
  1,4: rewrite Z.add_0_r; cbn [Z.mul double];
       rewrite (normal_twice _ pa 0) by lia; done.
  all: match goal with
       | |- SpecFloat.SFadd _ _ (normal ?sa _ _) (normal ?sb _ _) = _ =>
           destruct (Hnorm sa pa ltac:(lia) 0) as (ma & ka & -> & Hka & Hma);
           destruct (Hnorm sb pb ltac:(lia) (-1)) as (mb & kb & -> & Hkb & Hmb)
       end.
  all: match goal with
       | |- SpecFloat.SFadd _ _ (SpecFloat.S754_finite ?sa ?m1 ?e1)
              (SpecFloat.S754_finite ?sb ?m2 ?e2) = double ?t _ =>
           rewrite (SFadd_finite_exact sa m1 e1 sb m2 e2 t (-1 - Z.min e1 e2))
       end.
  all: try (f_equal; lia).
  all: try lia.
  all: remember (Z.min (0 - ka) (-1 - kb)) as E eqn:HE.
  all: assert (Z.pos ma * 2 ^ (0 - ka - E) = 2 * Z.pos pa * 2 ^ (-1 - E)) as H1
         by (rewrite Hma, <- Z.mul_assoc, <- Z.pow_add_r by lia;
             replace (ka + (0 - ka - E)) with (Z.succ (-1 - E)) by lia;
             rewrite Z.pow_succ_r by lia; ring).
  all: assert (Z.pos mb * 2 ^ (-1 - kb - E) = Z.pos pb * 2 ^ (-1 - E)) as H2
         by (rewrite Hmb, <- Z.mul_assoc, <- Z.pow_add_r by lia; f_equal; f_equal; lia).
  all: rewrite <- ?(Pos2Z.opp_pos ma), <- ?(Pos2Z.opp_pos mb),
         <- ?(Pos2Z.opp_pos pa), <- ?(Pos2Z.opp_pos pb).
  all: lia.
Qed.

(** [float(n) / float(2)] is exact. *)
Lemma SFdiv_2_exact n :
  Z.abs n < 2 ^ 53 →
  SpecFloat.SFdiv 53 1024 (double n 0) (float 2) = double n (-1).
Proof.
  intros Hn.
  change (float 2) with (SpecFloat.S754_finite false 4503599627370496 (-51)).
  destruct n as [|p|p]; [done| |].
  all: pose proof (digits2_pos_bound p 53 ltac:(lia) ltac:(lia)) as Hd.
  all: destruct (normal_mantissa false p 0 Hd) as (m & k & Hm & Hk & Hkd & Hv).
  all: cbn [double]; unfold normal in Hm; injection Hm as Hm1 Hm2.
  all: unfold normal at 1; rewrite Hm1, Hm2.
  all: assert (Z.pos (SpecFloat.digits2_pos m) = 53) as Hdm
         by (subst m; destruct (53 - Z.pos (SpecFloat.digits2_pos p)) as [|q|q] eqn:Hq;
             unfold Pos.shiftl, Z.to_N; rewrite ?pos_iter_xO_digits; lia).
  all: cbn [SpecFloat.SFdiv xorb].
  all: unfold SpecFloat.SFdiv_core_binary, SpecFloat.fexp, SpecFloat.emin.
  all: change (SpecFloat.Zdigits2 4503599627370496) with 53.
  all: cbn [SpecFloat.Zdigits2]; rewrite Hdm.
  all: replace (Z.min (Z.max (53 + (0 - k) - (53 + -51) - 53) (3 - 1024 - 53))
                  (0 - k - -51)) with (0 - k - 2) by lia.
  all: replace (0 - k - -51 - (0 - k - 2)) with 53 by lia.
  all: rewrite Z.shiftl_mul_pow2 by lia.
  all: assert (Z.div_eucl (Z.pos m * 2 ^ 53) 4503599627370496 = (Z.pos m~0, 0)) as ->.
  all: try (rewrite (surjective_pairing (Z.div_eucl _ _));
            change (Z.div_eucl ?a ?b).1 with (a / b);
            change (Z.div_eucl ?a ?b).2 with (a mod b);
            replace (Z.pos m * 2 ^ 53) with (Z.pos m~0 * 4503599627370496) by
              (change (2 ^ 53) with (2 * 4503599627370496); lia);
            by rewrite Z.div_mul, Z.mod_mul by done).
  all: change (SpecFloat.new_location 4503599627370496 0) with SpecFloat.loc_Exact.
  all: rewrite (binary_round_aux_exact _ _ p (k + 1)); [f_equal; lia|lia| |done|lia|lia].
  all: rewrite Pos2Z.inj_xO, Hv, Z.pow_add_r by lia; lia.
Qed.

Lemma float_value_double (n : Z) :
  Z.abs n < 2 ^ 53 →
  ∃ q, float_value (double n (-1)) = Some q ∧ (q == n # 2)%Q.
Proof.
  intros Hn. destruct n as [|p|p].
  - by exists 0%Q.
  - pose proof (digits2_pos_bound p 53 ltac:(lia) ltac:(lia)) as Hd.
    destruct (normal_mantissa false p (-1) Hd) as (m & k & Hm & Hk & Hkd & Hv).
    cbn [double]. rewrite Hm. eexists. split; [reflexivity|].
    unfold scaled. rewrite Qred_correct.
    destruct (Z.leb_spec 0 (-1 - k)); [lia|].
    unfold Qeq. cbn [Qnum Qden]. rewrite Z2Pos.id by (apply Z.pow_pos_nonneg; lia).
    rewrite Hv. replace (- (-1 - k)) with (Z.succ k) by lia.
    rewrite Z.pow_succ_r by lia. lia.
  - pose proof (digits2_pos_bound p 53 ltac:(lia) ltac:(lia)) as Hd.
    destruct (normal_mantissa true p (-1) Hd) as (m & k & Hm & Hk & Hkd & Hv).
    cbn [double]. rewrite Hm. eexists. split; [reflexivity|].
    unfold scaled. rewrite Qred_correct.
    destruct (Z.leb_spec 0 (-1 - k)); [lia|].
    unfold Qeq. cbn [Qnum Qden]. rewrite Z2Pos.id by (apply Z.pow_pos_nonneg; lia).
    rewrite <- (Pos2Z.opp_pos m), Hv. replace (- (-1 - k)) with (Z.succ k) by lia.
    rewrite Z.pow_succ_r by lia. lia.
Qed.

(** On bounding boxes of C ints and font sizes of 32 bits, binary64 makes
    no rounding error in the two lines of [add_shape]. *)
Lemma label_anchor_binary64_exact (x0 y0 x1 y1 size : Z) :
  c_int x0 → c_int y0 → c_int x1 → c_int y1 → c_int size →
  label_anchor_binary64 (x0, y0, x1, y1) size
  = (double (x0 + x1) (-1), double (2 * y0 + 3 * size) (-1)).
Proof.
  unfold c_int. intros Hx0 Hy0 Hx1 Hy1 Hs. unfold label_anchor_binary64.
  change (2 ^ 31) with 2147483648 in *.
  assert (2 ^ 50 = 1125899906842624) as E50 by done.
  assert (2 ^ 51 = 2251799813685248) as E51 by done.
  assert (2 ^ 53 = 9007199254740992) as E53 by done.
  rewrite !float_exact by lia.
  rewrite SFmul_1_5_exact by lia.
  rewrite SFadd_exact by lia.
  rewrite SFdiv_2_exact by lia.
  done.
Qed.

Lemma label_anchor_exact (x0 y0 x1 y1 size : Z) :
  c_int x0 → c_int y0 → c_int x1 → c_int y1 → c_int size →
  ((label_anchor (x0, y0, x1, y1) size).1 == (inject_Z x0 + inject_Z x1) / 2)%Q
  ∧ ((label_anchor (x0, y0, x1, y1) size).2 == inject_Z y0 + 1.5 * inject_Z size)%Q
  ∧ is_Some (float_value (label_anchor_binary64 (x0, y0, x1, y1) size).1)
  ∧ is_Some (float_value (label_anchor_binary64 (x0, y0, x1, y1) size).2).
Proof.
  intros Hx0 Hy0 Hx1 Hy1 Hs. unfold label_anchor.
  rewrite label_anchor_binary64_exact by done. unfold c_int in *.
  change (2 ^ 31) with 2147483648 in *.
  assert (2 ^ 53 = 9007199254740992) as E53 by done.
  destruct (float_value_double (x0 + x1) ltac:(lia)) as (qx & Hqx & Hx).
  destruct (float_value_double (2 * y0 + 3 * size) ltac:(lia)) as (qy & Hqy & Hy).
  cbn [fst snd]. unfold coordinate. rewrite Hqx, Hqy. cbn [default from_option].
  split_and!; [| |done|done].
  - rewrite Hx. unfold Qeq. cbn. lia.
  - rewrite Hy. unfold Qeq. cbn. lia.
Qed.

Lemma float_1_5_is_three_halves :
  float_1_5 = double 3 (-1)
  ∧ float_1_5 = SpecFloat.SFdiv 53 1024 (float 3) (float 2)
  ∧ float_value float_1_5 = Some (3 # 2)%Q.
Proof. split_and!; reflexivity. Qed.

(** C9. When the canvas reports the bounding box (x0, y0, x1, y1) for the
    restyled shape, committing a shape without a label returns normally and
    creates the label at the anchor that [add_shape] computes in binary64;
    for a box of C ints, as Tk reports, and a font size of 32 bits that
    anchor is exactly x = (x0 + x1) / 2, y = y0 + 1.5 s. The box
    (10, 20, 50, 60) with size 10 gives the anchor (30, 35). *)
Theorem label_anchor_position :
  ∀ (bbox_of : Canvas.item → option (Z * Z * Z * Z)) (w : world)
    (i x0 y0 x1 y1 : Z),
    let d := self w in
    let l := Dialog.shape d in
    let s := Dialog.font_size d in
    is_shape d = true →
    Dialog.id d = Some i →
    (∀ it, Canvas.items (canvas w) !! i = Some it → Canvas.type it ≠ Canvas.text) →
    Canvas.bbox bbox_of i (Canvas.itemconfig i (shape_kw d) (canvas w)).1
      = Some (x0, y0, x1, y1) →
    Shape.text_id (heap w l) = None →
    c_int x0 → c_int y0 → c_int x1 → c_int y1 → c_int s →
    ∃ w' x y o, click_add bbox_of w = Ok tt w'
      ∧ float_value (label_anchor_binary64 (x0, y0, x1, y1) s).1 = Some x
      ∧ float_value (label_anchor_binary64 (x0, y0, x1, y1) s).2 = Some y
      ∧ Canvas.items (canvas w') !! Canvas.next_id (canvas w)
        = Some (Canvas.Item Canvas.text [x; y] o)
      ∧ (x == (inject_Z x0 + inject_Z x1) / 2)%Q
      ∧ (y == inject_Z y0 + 1.5 * inject_Z s)%Q
      ∧ float_value (label_anchor_binary64 (10, 20, 50, 60) 10).1 = Some 30%Q
      ∧ float_value (label_anchor_binary64 (10, 20, 50, 60) 10).2 = Some 35%Q.
Proof.
  intros bbox_of w i x0 y0 x1 y1 d l s. subst d l s.
  intros Hs Hid Hty Hbb Hn Hx0 Hy0 Hx1 Hy1 Hsize.
  destruct (commit_shape_fresh bbox_of w i _ Hs Hid Hty Hbb Hn)
    as (w' & o & Hrun & Hc & _).
  destruct (label_anchor_exact x0 y0 x1 y1 (Dialog.font_size (self w))
              Hx0 Hy0 Hx1 Hy1 Hsize) as (Hx & Hy & [x Hfx] & [y Hfy]).
  unfold label_anchor in Hx, Hy, Hc.
  destruct (label_anchor_binary64 (x0, y0, x1, y1) (Dialog.font_size (self w)))
    as [fx fy].
  cbn [fst snd] in *. unfold coordinate in Hx, Hy, Hc.
  rewrite Hfx in Hx, Hc. rewrite Hfy in Hy, Hc.
  cbn [default from_option] in Hx, Hy, Hc.
  exists w', x, y, o.
  rewrite Hc. cbn [Canvas.items Canvas.set_items]. rewrite lookup_insert_eq.
  split_and!; done.
Qed.

Lemma label_anchor_position_witness :
  ∃ w' o, click_add example_bbox_of new_shape_world = Ok tt w'
    ∧ Canvas.items (canvas w') !! 2 = Some (Canvas.Item Canvas.text [30; 35]%Q o).
Proof.
  destruct (label_anchor_position example_bbox_of new_shape_world 1 10 20 50 60)
    as (w' & x & y & o & Hrun & Hx & Hy & Hit & _).
  - reflexivity.
  - reflexivity.
  - intros it H. vm_compute in H. injection H as <-. discriminate.
  - vm_compute. reflexivity.
  - reflexivity.
  - unfold c_int. lia.
  - unfold c_int. lia.
  - unfold c_int. lia.
  - unfold c_int. lia.
  - vm_compute. split; [discriminate|reflexivity].
  - vm_compute in Hx, Hy. injection Hx as <-. injection Hy as <-.
    exists w', o. split; [exact Hrun|exact Hit].
Defined.

(** ** Invariants kept in every outcome *)

Lemma keeps_bind {A B} (I : world → Prop) (m : M A) (k : A → M B) :
  keeps I m → (∀ a, keeps I (k a)) → keeps I (m ≫= k).
Proof.
  intros Hm Hk w Hw. specialize (Hm w Hw). unfold mbind, M_bind.
  destruct (m w) as [a w'|e w']; cbn in *; [by apply Hk|done].
Qed.

(** After [gets g] the continuation runs on a value read from a world that
    satisfies the invariant. *)
Lemma keeps_bind_gets {A B} (I : world → Prop) (g : world → A) (k : A → M B) :
  (∀ w0, I w0 → keeps I (k (g w0))) → keeps I (gets g ≫= k).
Proof. intros Hk w Hw. unfold mbind, M_bind, gets. by apply (Hk w). Qed.

Lemma keeps_ret {A} (I : world → Prop) (a : A) : keeps I (mret a).
Proof. by intros w Hw. Qed.

Lemma keeps_attr {A} (I : world → Prop) (g : Dialog.t → option A) : keeps I (attr g).
Proof. intros w Hw. unfold attr. by destruct (g (self w)). Qed.

Lemma keeps_shapes_getitem (I : world → Prop) i : keeps I (shapes_getitem i).
Proof. intros w Hw. unfold shapes_getitem. by destruct (_ !! _). Qed.

Lemma keeps_bbox (I : world → Prop) bbox_of i : keeps I (canvas_bbox bbox_of i).
Proof. intros w Hw. unfold canvas_bbox. by destruct (Canvas.bbox _ _ _). Qed.

Lemma keeps_modify (I : world → Prop) (g : world → world) :
  (∀ w, I w → I (g w)) → keeps I (modify g).
Proof. intros H w Hw. by apply H. Qed.

Lemma keeps_itemconfig (I : world → Prop) i kw :
  (∀ w, I w → I (set_canvas (Canvas.itemconfig i kw (canvas w)).1 w)) →
  keeps I (canvas_itemconfig i kw).
Proof.
  intros H w Hw. specialize (H w Hw). unfold canvas_itemconfig.
  by destruct (Canvas.itemconfig i kw (canvas w)) as [c [e|]].
Qed.

Lemma keeps_create_text (I : world → Prop) x y kw :
  (∀ w, I w → I (set_canvas (Canvas.create_text x y kw (canvas w)).1 w)) →
  keeps I (canvas_create_text x y kw).
Proof.
  intros H w Hw. specialize (H w Hw). unfold canvas_create_text.
  by destruct (Canvas.create_text x y kw (canvas w)) as [c [e|j]].
Qed.

Ltac keeps_step :=
  match goal with
  | |- keeps _ (gets _ ≫= _) => apply keeps_bind_gets; intros ? ?
  | |- keeps _ (_ ≫= _) => apply keeps_bind; [|intros ?]
  | |- keeps _ (mret _) => apply keeps_ret
  | |- keeps _ (attr _) => apply keeps_attr
  | |- keeps _ (shapes_getitem _) => apply keeps_shapes_getitem
  | |- keeps _ (canvas_bbox _ _) => apply keeps_bbox
  | |- keeps _ (canvas_itemconfig _ _) => apply keeps_itemconfig
  | |- keeps _ (canvas_create_text _ _ _) => apply keeps_create_text
  | |- keeps _ (modify _) => apply keeps_modify
  | |- keeps _ (if ?x then _ else _) => destruct x eqn:?
  | |- keeps _ (match ?x with _ => _ end) => destruct x eqn:?
  end.
Ltac keeps_steps := repeat keeps_step.

(** The same, stopping at the assignment of [text_id]: it and the
    assignments up to [created] are one step for [labelled_is_created]. *)
Ltac keeps_step_labelled :=
  match goal with
  | |- keeps _ (assign_shape _ (Shape.set_text_id _) ≫= _) => fail 1
  | |- keeps _ (assign_shape _ _) => unfold assign_shape; apply keeps_modify
  | |- keeps _ (assign_data _ _) => unfold assign_data, assign_shape; apply keeps_modify
  | |- keeps _ (assign_self _) => unfold assign_self; apply keeps_modify
  | |- keeps _ (assign_canvas _) => unfold assign_canvas; apply keeps_modify
  | _ => keeps_step
  end.

Ltac open_methods :=
  unfold click_add, commit_body, add_shape, add_text, save_text, save_shape, cancel,
         shapes_pop, destroy, choose_text_color, choose_fill_color,
         choose_border_color, assign_data, assign_shape, assign_self, assign_canvas.

Lemma itemconfig_registries i kw c :
  Canvas.shapes (Canvas.itemconfig i kw c).1 = Canvas.shapes c
  ∧ Canvas.texts (Canvas.itemconfig i kw c).1 = Canvas.texts c
  ∧ Canvas.next_id (Canvas.itemconfig i kw c).1 = Canvas.next_id c.
Proof.
  unfold Canvas.itemconfig. destruct (Canvas.items c !! i); [|done].
  by destruct (Canvas.configure _ _).
Qed.

Lemma create_text_registries x y kw c :
  Canvas.shapes (Canvas.create_text x y kw c).1 = Canvas.shapes c
  ∧ Canvas.texts (Canvas.create_text x y kw c).1 = Canvas.texts c.
Proof.
  unfold Canvas.create_text. by destruct (Canvas.configure _ _) as [it [e|]].
Qed.

Lemma click_add_unfold bbox_of w :
  click_add bbox_of w
  = match commit_body bbox_of (self w) w with
    | Ok _ w' => Ok tt (set_self (Dialog.set_destroyed true (self w')) w')
    | Raise e w' => Raise e w'
    end.
Proof. reflexivity. Qed.

Lemma commit_body_keeps_open bbox_of d b :
  keeps (λ w, Dialog.destroyed (self w) = b) (commit_body bbox_of d).
Proof. open_methods. keeps_steps; done. Qed.

Lemma cancel_closes_iff_returns w :
  match cancel w with
  | Ok _ w' => Dialog.destroyed (self w') = true
  | Raise _ w' => Dialog.destroyed (self w') = Dialog.destroyed (self w)
  end.
Proof.
  unfold cancel, destroy, shapes_pop, shapes_getitem. run.
  destruct (is_shape (self w)); [|done]. run.
  destruct (Dialog.id (self w)) as [i|] eqn:Hid; [|done]. run.
  destruct (Canvas.shapes (canvas w) !! i) as [l|] eqn:Hl; [|done]. run.
  destruct (Shape.created (heap w l)); [done|].
  cbn [negb]. rewrite Hid. run. rewrite Hid. run.
  cbn [Canvas.shapes Canvas.delete Canvas.set_items]. by rewrite Hl.
Qed.

(** X1. [click_add] and [cancel] close the dialog exactly when they return: a
    method that raises leaves the window as it was. *)
Theorem dialog_closes_iff_method_returns :
  ∀ (bbox_of : Canvas.item → option (Z * Z * Z * Z)) (w : world),
    match click_add bbox_of w with
    | Ok _ w' => Dialog.destroyed (self w') = true
    | Raise _ w' => Dialog.destroyed (self w') = Dialog.destroyed (self w)
    end
    ∧ match cancel w with
      | Ok _ w' => Dialog.destroyed (self w') = true
      | Raise _ w' => Dialog.destroyed (self w') = Dialog.destroyed (self w)
      end.
Proof.
  intros bbox_of w. split.
  - rewrite click_add_unfold.
    pose proof (commit_body_keeps_open bbox_of (self w) _ w eq_refl) as H.
    by destruct (commit_body bbox_of (self w) w).
  - apply cancel_closes_iff_returns.
Qed.

Ltac use_shape_eqs :=
  repeat match goal with
         | H : _ ∧ _ |- _ => destruct H
         end;
  repeat match goal with
         | H : Dialog.shape ?d = _ |- context [Dialog.shape ?d] => rewrite H
         end.

Lemma click_add_keeps_others bbox_of (l l' : ref) (v : Shape.t) (x y : Q) :
  l' ≠ l →
  keeps (λ w, Dialog.shape (self w) = l ∧ heap w l' = v
              ∧ Shape.x0 (heap w l) = x ∧ Shape.y0 (heap w l) = y)
    (click_add bbox_of).
Proof.
  intros Hne. open_methods. keeps_steps.
  all: try done.
  all: intros w Hw; cbn; use_shape_eqs;
    rewrite ?fn_lookup_insert, ?fn_lookup_insert_ne by done; by split_and!.
Qed.

(** An annotation that has its label has been committed, before and after
    every method of the dialog and every edit of the form, whether the
    method returns or raises: the two fields are assigned together. *)
Lemma labelled_is_created_kept bbox_of :
  keeps (λ w, ∀ l, labelled_is_created (heap w l)) (click_add bbox_of)
  ∧ keeps (λ w, ∀ l, labelled_is_created (heap w l)) cancel
  ∧ (∀ es w, (∀ l, labelled_is_created (heap w l)) →
             ∀ l, labelled_is_created (heap (edits es w) l)).
Proof.
  split_and!.
  - unfold click_add, add_shape, add_text, save_text, save_shape, destroy,
      labelled_is_created.
    repeat keeps_step_labelled.
    all: try done.
    all: try (intros w Hw l'; cbn;
              match goal with
              | |- context [<[?l := _]> _ l'] =>
                  destruct (decide (l' = l)) as [->|?];
                  rewrite ?fn_lookup_insert, ?fn_lookup_insert_ne by done;
                  [cbn; apply Hw|apply Hw]
              end).
    all: intros w Hw l';
      unfold assign_shape, assign_self, assign_canvas, modify, mbind, M_bind; cbn;
      match goal with
      | |- context [<[?l := _]> _ l'] =>
          destruct (decide (l' = l)) as [->|?];
          rewrite ?fn_lookup_insert, ?fn_lookup_insert_ne by done;
          [done|apply Hw]
      end.
  - open_methods. unfold labelled_is_created. keeps_steps. all: done.
  - intros es w Hw l. by rewrite (proj1 (edits_frame es w)).
Qed.

(** X2. Whatever its outcome, [click_add] writes no annotation other than the
    one the dialog edits, keeps that annotation's origin, and keeps the
    dialog bound to it. *)
Theorem commit_writes_only_its_annotation :
  ∀ (bbox_of : Canvas.item → option (Z * Z * Z * Z)) (w : world),
    let l := Dialog.shape (self w) in
    let w' := final (click_add bbox_of w) in
    (∀ l', l' ≠ l → heap w' l' = heap w l')
    ∧ Shape.x0 (heap w' l) = Shape.x0 (heap w l)
    ∧ Shape.y0 (heap w' l) = Shape.y0 (heap w l)
    ∧ Dialog.shape (self w') = l.
Proof.
  intros bbox_of w l w'.
  assert (Hk : ∀ l', l' ≠ l →
            Dialog.shape (self w') = l ∧ heap w' l' = heap w l'
            ∧ Shape.x0 (heap w' l) = Shape.x0 (heap w l)
            ∧ Shape.y0 (heap w' l) = Shape.y0 (heap w l)).
  { intros l' Hne.
    by apply (click_add_keeps_others bbox_of l l' (heap w l') (Shape.x0 (heap w l))
                (Shape.y0 (heap w l)) Hne w). }
  split; [intros l' Hne; by destruct (Hk l' Hne) as (_ & ? & _)|].
  destruct (Hk (Pos.succ l)) as (? & _ & ? & ?); [lia|done].
Qed.

Lemma click_add_keeps_shapes bbox_of (s : gmap Z ref) :
  keeps (λ w, Canvas.shapes (canvas w) = s) (click_add bbox_of).
Proof.
  open_methods. keeps_steps. all: try done.
  all: intros w Hw; cbn;
    rewrite ?(proj1 (itemconfig_registries _ _ _)),
            ?(proj1 (create_text_registries _ _ _ _)); done.
Qed.

Lemma click_add_keeps_texts bbox_of (l : ref) (t : gmap Z ref) :
  keeps (λ w, Dialog.shape (self w) = l
              ∧ ∀ k, Canvas.texts (canvas w) !! k = t !! k
                     ∨ Canvas.texts (canvas w) !! k = Some l)
    (click_add bbox_of).
Proof.
  open_methods. keeps_steps. all: try done.
  all: intros w Hw; cbn;
    rewrite ?(proj1 (proj2 (itemconfig_registries _ _ _))),
            ?(proj2 (create_text_registries _ _ _ _)); try done.
  use_shape_eqs. split; [done|]. intros k.
  match goal with |- context [<[?a := _]> _] => destruct (decide (a = k)) as [->|] end.
  - right. apply lookup_insert_eq.
  - by rewrite lookup_insert_ne.
Qed.

Lemma click_add_shape_keeps_texts bbox_of (t : gmap Z ref) :
  keeps (λ w, is_shape (self w) = true ∧ Canvas.texts (canvas w) = t)
    (click_add bbox_of).
Proof.
  open_methods. keeps_steps. all: try done.
  all: try (intros w Hw; cbn;
    rewrite ?(proj1 (proj2 (itemconfig_registries _ _ _))),
            ?(proj2 (create_text_registries _ _ _ _)); done).
  all: use_shape_eqs; congruence.
Qed.

Lemma cancel_keeps_texts (t : gmap Z ref) :
  keeps (λ w, Canvas.texts (canvas w) = t) cancel.
Proof. open_methods. keeps_steps; done. Qed.

(** X3. Whatever its outcome, [click_add] never writes the shapes registry;
    every entry of the texts registry is afterwards the old one or points at
    the edited annotation, and a shape commit leaves the texts registry as
    it was. [cancel] never writes the texts registry. *)
Theorem registries_frame :
  ∀ (bbox_of : Canvas.item → option (Z * Z * Z * Z)) (w : world),
    let l := Dialog.shape (self w) in
    let wc := final (click_add bbox_of w) in
    Canvas.shapes (canvas wc) = Canvas.shapes (canvas w)
    ∧ (∀ k, Canvas.texts (canvas wc) !! k = Canvas.texts (canvas w) !! k
            ∨ Canvas.texts (canvas wc) !! k = Some l)
    ∧ (if is_shape (self w) then Canvas.texts (canvas wc) = Canvas.texts (canvas w)
       else True)
    ∧ Canvas.texts (canvas (final (cancel w))) = Canvas.texts (canvas w).
Proof.
  intros bbox_of w l wc. split_and!.
  - by apply (click_add_keeps_shapes bbox_of _ w).
  - apply (click_add_keeps_texts bbox_of l (Canvas.texts (canvas w)) w). eauto.
  - destruct (is_shape (self w)) eqn:Hs; [|done].
    by apply (click_add_shape_keeps_texts bbox_of (Canvas.texts (canvas w)) w).
  - by apply (cancel_keeps_texts _ w).
Qed.

(** ** The form between opening and a button *)

Lemma apply_edit_keeps_variant e w :
  let w' := final (apply_edit e w) in
  Dialog.annotation_type (self w') = Dialog.annotation_type (self w)
  ∧ Dialog.id (self w') = Dialog.id (self w)
  ∧ Dialog.shape (self w') = Dialog.shape (self w)
  ∧ Dialog.destroyed (self w') = Dialog.destroyed (self w)
  ∧ (is_Some (Dialog.fill (self w')) ↔ is_Some (Dialog.fill (self w)))
  ∧ (is_Some (Dialog.border (self w')) ↔ is_Some (Dialog.border (self w))).
Proof.
  destruct e; cbn [apply_edit]; try done;
    unfold choose_text_color, choose_fill_color, choose_border_color; run; try done.
  - cbn [Dialog.fill Dialog.set_fill_color].
    destruct (Dialog.fill (self w)) eqn:Hf; cbn; rewrite ?Hf; split_and!; try done;
      split; eauto.
  - cbn [Dialog.border Dialog.set_border_color].
    destruct (Dialog.border (self w)) eqn:Hb; cbn; rewrite ?Hb; split_and!; try done;
      split; eauto.
Qed.

(** X4. The variant of an editor is fixed when it is built: no sequence of
    edits and colour prompts changes the annotation type, the element id,
    the annotation the dialog is bound to, whether the window is open, or
    whether the two swatches exist. *)
Theorem edits_keep_variant :
  ∀ (es : list edit) (w : world),
    let w' := edits es w in
    Dialog.annotation_type (self w') = Dialog.annotation_type (self w)
    ∧ is_shape (self w') = is_shape (self w)
    ∧ is_text (self w') = is_text (self w)
    ∧ Dialog.id (self w') = Dialog.id (self w)
    ∧ Dialog.shape (self w') = Dialog.shape (self w)
    ∧ Dialog.destroyed (self w') = Dialog.destroyed (self w)
    ∧ (is_Some (Dialog.fill (self w')) ↔ is_Some (Dialog.fill (self w)))
    ∧ (is_Some (Dialog.border (self w')) ↔ is_Some (Dialog.border (self w))).
Proof.
  intros es. induction es as [|e es IH]; intros w; [done|].
  cbn. destruct (IH (final (apply_edit e w))) as (H1 & _ & _ & H2 & H3 & H4 & H5 & H6).
  destruct (apply_edit_keeps_variant e w) as (G1 & G2 & G3 & G4 & G5 & G6).
  unfold is_shape, is_text. rewrite H1, H2, H3, H4, H5, H6, G1, G2, G3, G4, G5, G6.
  done.
Qed.

Lemma edits_keep_swatches es w :
  is_shape (self (edits es w)) = is_shape (self w)
  ∧ (is_Some (Dialog.fill (self (edits es w))) ↔ is_Some (Dialog.fill (self w)))
  ∧ (is_Some (Dialog.border (self (edits es w))) ↔ is_Some (Dialog.border (self w))).
Proof.
  revert w. induction es as [|e es IH]; intros w; [done|].
  cbn. destruct (IH (final (apply_edit e w))) as (H1 & H2 & H3).
  destruct (apply_edit_keeps_variant e w) as (G1 & _ & _ & _ & G5 & G6).
  unfold is_shape in *. by rewrite H1, H2, H3, G1, G5, G6.
Qed.

Lemma init_swatches h c l :
  let d := __init__ h c l in
  (if is_shape d
   then is_Some (Dialog.fill d) ∧ is_Some (Dialog.border d) ∧ is_Some (Dialog.id d)
   else Dialog.fill d = None ∧ Dialog.border d = None ∧ Dialog.id d = None).
Proof.
  unfold __init__, is_shape. cbn.
  destruct (bool_decide _ || bool_decide _); cbn; eauto.
Qed.

(** X5. In an editor built by [__init__], after any edits: in a shape editor
    the fill and border choosers always return, store the answer and show a
    chosen colour on the swatch (a dismissed prompt leaves the swatch as it
    was); in any other editor, which has no swatches, they raise
    [AttributeError] after having overwritten the colour. *)
Theorem color_choosers_after_init :
  ∀ (h : ref → Shape.t) (c : Canvas.t) (l : ref) (es : list edit)
    (answer : askcolor_result),
    let w := edits es (World h c (__init__ h c l)) in
    let shown (old : option Label) (new : option Label) :=
      match answer.2 with
      | Some col => new = Some (mkLabel (Some col) (Some col))
      | None => new = old
      end in
    if is_shape (self w)
    then (∃ w', choose_fill_color answer w = Ok tt w'
                ∧ Dialog.fill_color (self w') = answer.2
                ∧ shown (Dialog.fill (self w)) (Dialog.fill (self w')))
         ∧ (∃ w', choose_border_color answer w = Ok tt w'
                  ∧ Dialog.border_color (self w') = answer.2
                  ∧ shown (Dialog.border (self w)) (Dialog.border (self w')))
    else choose_fill_color answer w
         = Raise AttributeError (set_self (Dialog.set_fill_color answer.2 (self w)) w)
         ∧ choose_border_color answer w
           = Raise AttributeError (set_self (Dialog.set_border_color answer.2 (self w)) w).
Proof.
  intros h c l es answer w shown.
  destruct (edits_keep_swatches es (World h c (__init__ h c l)))
    as (Hs & Hf & Hb).
  fold w in Hs, Hf, Hb. cbn [self] in Hs, Hf, Hb.
  pose proof (init_swatches h c l) as Hi. cbn zeta in Hi. rewrite Hs.
  unfold choose_fill_color, choose_border_color. run.
  cbn [Dialog.fill Dialog.border Dialog.set_fill_color Dialog.set_border_color].
  destruct (is_shape (__init__ h c l)).
  - destruct Hi as (Hif%Hf & Hib%Hb & _).
    destruct Hif as [lf ->], Hib as [lb ->]. subst shown. cbn.
    split; eexists; (split; [reflexivity|]); cbn;
      destruct answer as [rgb [col|]]; cbn; by rewrite ?label_config_none.
  - destruct Hi as (Hif & Hib & _).
    assert (Dialog.fill (self w) = None) as ->.
    { destruct (Dialog.fill (self w)) eqn:E; [|done].
      destruct (proj1 Hf) as [? ?]; [eauto|congruence]. }
    assert (Dialog.border (self w) = None) as ->.
    { destruct (Dialog.border (self w)) eqn:E; [|done].
      destruct (proj1 Hb) as [? ?]; [eauto|congruence]. }
    done.
Qed.

(** ** More about commit *)










(** ** Editors whose shape is gone, and editors opened again *)

(** X9. A shape editor whose element is no longer on the canvas cannot commit:
    [canvas.bbox] returns [None], unpacking it raises [TypeError], and
    nothing has been stored or closed. One whose id is no longer in the
    shapes registry cannot cancel: the subscript raises [KeyError], again
    with the world as it was. *)
Theorem stale_shape_editor_raises :
  ∀ (bbox_of : Canvas.item → option (Z * Z * Z * Z)) (w : world) (i : Z),
    is_shape (self w) = true →
    Dialog.id (self w) = Some i →
    (Canvas.items (canvas w) !! i = None → click_add bbox_of w = Raise TypeError w)
    ∧ (Canvas.shapes (canvas w) !! i = None → cancel w = Raise KeyError w).
Proof.
  intros bbox_of [h c d] i Hs Hid. cbn [self canvas] in *. split; intros Hi.
  - unfold click_add, add_shape, canvas_itemconfig, canvas_bbox. run.
    rewrite Hs. run. rewrite Hid. run. rewrite itemconfig_absent by done. run.
    rewrite Hid. run. unfold Canvas.bbox. by rewrite Hi.
  - unfold cancel, shapes_getitem. run. rewrite Hs. run. rewrite Hid. run.
    by rewrite Hi.
Qed.



(** ** The properties above on the example worlds *)




Lemma stale_shape_editor_raises_witness :
  click_add example_bbox_of stale_shape_world = Raise TypeError stale_shape_world
  ∧ cancel stale_shape_world = Raise KeyError stale_shape_world.
Proof.
  destruct (stale_shape_editor_raises example_bbox_of stale_shape_world 1)
    as (Hcommit & Hcancel).
  - reflexivity.
  - reflexivity.
  - split; [apply Hcommit|apply Hcancel]; reflexivity.
Defined.


(** * Properties of the operating-system detection *)

Lemma split_on_length sep s :
  length (tasks.split_on sep s) = S (count_char sep s).
Proof.
  induction s as [|a s IH]; [done|]. cbn.
  destruct (Ascii.eqb a sep); cbn; [by rewrite IH|].
  destruct (tasks.split_on sep s); cbn in *; lia.
Qed.

(** X11. [OsName.get] maps the value of every member back to the member, and
    every string that is not "ubuntu" or "centos" to [UNKNOWN]: it never
    fails. *)
Theorem os_name_get_round_trip :
  (∀ n, tasks.OsName.get (tasks.OsName.value n) = n)
  ∧ (∀ name n, tasks.OsName.of_value name = Some n ↔ name = tasks.OsName.value n)
  ∧ (∀ name, tasks.OsName.get name = tasks.OsName.UNKNOWN
             ↔ name ≠ "ubuntu" ∧ name ≠ "centos").
Proof.
  split_and!.
  - by intros [].
  - intros name n. unfold tasks.OsName.of_value.
    destruct (String.eqb_spec name "ubuntu") as [->|?];
      [split; [by intros [= <-]|by destruct n]|].
    destruct (String.eqb_spec name "centos") as [->|?];
      [split; [by intros [= <-]|by destruct n]|].
    destruct (String.eqb_spec name "unknown") as [->|?];
      [split; [by intros [= <-]|by destruct n]|].
    split; [done|]. by destruct n.
  - intros name. unfold tasks.OsName.get, tasks.OsName.of_value.
    destruct (String.eqb_spec name "ubuntu") as [->|?]; [split; [done|by intros [? ?]]|].
    destruct (String.eqb_spec name "centos") as [->|?]; [split; [done|by intros [? ?]]|].
    by destruct (String.eqb name "unknown").
Qed.

(** X12. [OsLike.get] is decided by the first value that is debian-like or
    redhat-like: values before it are skipped, values after it are not
    looked at, and the result is [None] exactly when no value is recognised.
    The value "rhel" of [OsLike.REDHAT] is itself not recognised. *)
Theorem os_like_get_first_recognised :
  (∀ values, tasks.OsLike.get values = None ↔ ∀ v, v ∈ values → ¬ recognised v)
  ∧ (∀ skipped v rest,
       (∀ x, x ∈ skipped → ¬ recognised x) →
       recognised v →
       tasks.OsLike.get (skipped ++ v :: rest)
       = Some (if bool_decide (v ∈ tasks.DEBIAN_LIKE)
               then tasks.OsLike.DEBIAN else tasks.OsLike.REDHAT))
  ∧ tasks.OsLike.get [tasks.OsLike.value tasks.OsLike.DEBIAN] = Some tasks.OsLike.DEBIAN
  ∧ tasks.OsLike.get [tasks.OsLike.value tasks.OsLike.REDHAT] = None.
Proof.
  split_and!; [| |done|done].
  - induction values as [|v values IH]; cbn.
    + split; [|done]. intros _ v Hv. by apply elem_of_nil in Hv.
    + repeat case_bool_decide.
      * split; [done|]. intros Hall. destruct (Hall v); [left|by left].
      * split; [done|]. intros Hall. destruct (Hall v); [left|by right].
      * rewrite IH. split.
        -- intros Hall x [->|Hx]%elem_of_cons; [by intros [?|?]|by apply Hall].
        -- intros Hall x Hx. apply Hall. by right.
  - intros skipped v rest Hskip Hv. induction skipped as [|x skipped IH]; cbn.
    + repeat case_bool_decide; try done. by destruct Hv.
    + assert (¬ recognised x) as Hx by (apply Hskip; left).
      rewrite bool_decide_eq_false_2 by (intros ?; apply Hx; by left).
      rewrite bool_decide_eq_false_2 by (intros ?; apply Hx; by right).
      apply IH. intros y Hy. apply Hskip. by right.
Qed.

(** X13. [OsInfo.get] never raises. It returns exactly when the install type is
    recognised and the version is missing, empty or a float; the name it
    returns is [OsName.get name], so the name is never a reason to fail. When
    it exits, the code is 1 and the cause is an unrecognised install type or a
    non-empty version that is not a float. *)
Theorem os_info_get_outcome py_float name like version :
  match tasks.OsInfo.get py_float name like version with
  | tasks.Returns info =>
      tasks.OsInfo.name info = tasks.OsName.get name
      ∧ tasks.OsLike.get like = Some (tasks.OsInfo.like info)
      ∧ match tasks.OsInfo.version info with
        | tasks.VersionNone => version = None
        | tasks.VersionEmpty => version = Some ""
        | tasks.VersionFloat x =>
            ∃ v, version = Some v ∧ v ≠ "" ∧ py_float v = Some x
        end
  | tasks.Exits printed code =>
      code = 1
      ∧ (tasks.OsLike.get like = None
         ∨ ∃ v, version = Some v ∧ v ≠ "" ∧ py_float v = None)
  | tasks.Raises _ => False
  end.
Proof.
  unfold tasks.OsInfo.get.
  destruct (tasks.OsLike.get like) as [k|] eqn:Hlike; [|by split; [|left]].
  destruct version as [[|a v]|]; [done| |done].
  destruct (py_float (String a v)) as [x|] eqn:Hfloat; cbn.
  - split_and!; [done..|]. by exists (String a v).
  - split; [done|]. right. by exists (String a v).
Qed.

Lemma OsInfo_get_never_raises py_float name like version e :
  tasks.OsInfo.get py_float name like version ≠ tasks.Raises e.
Proof.
  unfold tasks.OsInfo.get.
  destruct (tasks.OsLike.get like); [|done].
  destruct version as [[|a v]|]; [done| |done].
  by destruct (py_float (String a v)).
Qed.

(** X14. With a non-empty install type, [get_os] does not depend on
    /etc/os-release nor on how floats are parsed: it only looks at the words
    of the install type. If it returns, the name is [UNKNOWN] and there is no
    version; otherwise it exits with code 1, and never raises. *)
Theorem get_os_install_type_overrides_file
    py_float py_float' (install_type : string) os_release os_release' :
  install_type ≠ "" →
  tasks.get_os py_float (Some install_type) os_release
  = tasks.get_os py_float' (Some install_type) os_release'
  ∧ match tasks.get_os py_float (Some install_type) os_release with
    | tasks.Returns info =>
        tasks.OsInfo.name info = tasks.OsName.UNKNOWN
        ∧ tasks.OsLike.get (tasks.split install_type) = Some (tasks.OsInfo.like info)
        ∧ tasks.OsInfo.version info = tasks.VersionNone
    | tasks.Exits _ code =>
        code = 1 ∧ tasks.OsLike.get (tasks.split install_type) = None
    | tasks.Raises _ => False
    end.
Proof.
  intros Hne. destruct install_type as [|a s]; [done|].
  unfold tasks.get_os, tasks.OsInfo.get.
  split; [done|].
  by destruct (tasks.OsLike.get (tasks.split (String a s))).
Qed.

Lemma get_os_install_type_overrides_file_witness :
  "redhat" ≠ ""
  ∧ tasks.get_os (λ _, None) (Some "redhat") None
    = tasks.get_os (λ _, None) (Some "redhat") (Some "ID=ubuntu").
Proof.
  split; [done|].
  apply (get_os_install_type_overrides_file
           (λ _, None) (λ _, None) "redhat" None (Some "ID=ubuntu")).
  done.
Defined.

(** ** Reading /etc/os-release *)

Lemma split_on_two sep s :
  (∃ key value, tasks.split_on sep s = [key; value]) ↔ count_char sep s = 1%nat.
Proof.
  pose proof (split_on_length sep s) as Hlen. split.
  - intros (key & value & Heq). rewrite Heq in Hlen. cbn in Hlen. lia.
  - intros Hc. rewrite Hc in Hlen.
    destruct (tasks.split_on sep s) as [|key [|value [|? ?]]]; try done. eauto.
Qed.

Lemma parse_lines_app py_lines lines d :
  tasks.parse_lines (py_lines ++ lines) d
  = match tasks.parse_lines py_lines d with
    | tasks.Returns d' => tasks.parse_lines lines d'
    | o => o
    end.
Proof.
  revert d. induction py_lines as [|line py_lines IH]; intros d; cbn; [done|].
  destruct (tasks.strip line); [done|].
  match goal with |- context [tasks.split_on ?c ?s] =>
    destruct (tasks.split_on c s) as [|? [|? [|? ?]]] end; done.
Qed.

Lemma parse_lines_outcome lines d :
  match tasks.parse_lines lines d with
  | tasks.Returns _ => Forall well_formed lines
  | tasks.Raises e => e = tasks.ValueError ∧ ¬ Forall well_formed lines
  | tasks.Exits _ _ => False
  end.
Proof.
  revert d. induction lines as [|line lines IH]; intros d; cbn; [done|].
  destruct (tasks.strip line) as [|a s] eqn:Hstrip.
  { specialize (IH d). destruct (tasks.parse_lines lines d); [| |done].
    - constructor; [by left|done].
    - split; [apply IH|]. intros [_ ?]%Forall_cons. by apply IH. }
  destruct (tasks.split_on "=" (String a s)) as [|key [|value [|? ?]]] eqn:Hsplit.
  1,2,4: split; [done|]; intros [[?|Hc] _]%Forall_cons; [by rewrite Hstrip in *|];
         rewrite Hstrip in Hc; apply split_on_two in Hc as (? & ? & Hc);
         by rewrite Hsplit in Hc.
  specialize (IH (<[key := tasks.strip_quotes value]> d)).
  assert (well_formed line) as Hwf.
  { right. rewrite Hstrip. apply split_on_two. eauto. }
  destruct (tasks.parse_lines lines _); [| |done].
  - by constructor.
  - split; [apply IH|]. intros [_ ?]%Forall_cons. by apply IH.
Qed.

(** X15. Without an install type, [get_os] raises [ValueError] exactly when some
    line of /etc/os-release, once stripped, is not empty and does not hold
    exactly one "=": a comment line or a value with an "=" in it is enough. *)
Theorem get_os_value_error_iff py_float content :
  tasks.get_os py_float None (Some content) = tasks.Raises tasks.ValueError
  ↔ ∃ line, line ∈ tasks.readlines content
            ∧ tasks.strip line ≠ ""
            ∧ count_char "="%char (tasks.strip line) ≠ 1%nat.
Proof.
  assert (¬ Forall well_formed (tasks.readlines content)
          ↔ ∃ line, line ∈ tasks.readlines content ∧ tasks.strip line ≠ ""
                    ∧ count_char "="%char (tasks.strip line) ≠ 1%nat) as <-.
  { rewrite <- Exists_Forall_neg; last first.
    { intros line. unfold well_formed.
      destruct (decide (tasks.strip line = "")); [by left; left|].
      destruct (decide (count_char "="%char (tasks.strip line) = 1%nat));
        [by left; right|]. right. by intros [?|?]. }
    rewrite Exists_exists. unfold well_formed. split.
    - intros (line & ? & Hn). exists line. split_and!; [done|..]; intros ?; apply Hn; auto.
    - intros (line & ? & ? & ?). exists line. split; [done|]. by intros [?|?]. }
  unfold tasks.get_os.
  pose proof (parse_lines_outcome (tasks.readlines content) ∅) as Hparse.
  destruct (tasks.parse_lines (tasks.readlines content) ∅) as [d|e|]; [| |done].
  - split; [|done].
    destruct (d !! "ID") as [name_value|]; [|done].
    destruct (d !! "VERSION_ID") as [version_value|]; [|done].
    intros Heq. by apply OsInfo_get_never_raises in Heq.
  - destruct Hparse as [-> ?]. done.
Qed.

Lemma split_on_single sep s v : tasks.split_on sep s = [v] → s = v.
Proof.
  revert v. induction s as [|a s IH]; intros v; cbn; [by intros [= <-]|].
  pose proof (split_on_length sep s) as Hlen.
  destruct (Ascii.eqb a sep).
  - intros [= <- Hs]. by rewrite Hs in Hlen.
  - destruct (tasks.split_on sep s) as [|part parts] eqn:Hs; [done|].
    intros [= <- ->]. by rewrite (IH part).
Qed.

Lemma split_on_pair sep s key value :
  tasks.split_on sep s = [key; value] → s = (key ++ String sep value)%string.
Proof.
  revert key. induction s as [|a s IH]; intros key; cbn; [done|].
  pose proof (split_on_length sep s) as Hlen.
  destruct (Ascii.eqb_spec a sep) as [->|Hne].
  - intros [= <- Hs]. by rewrite (split_on_single _ _ _ Hs).
  - destruct (tasks.split_on sep s) as [|part parts] eqn:Hs; [done|].
    intros [= <- ->]. by rewrite (IH part).
Qed.

Lemma split_on_no_sep sep s : count_char sep s = 0%nat → tasks.split_on sep s = [s].
Proof.
  induction s as [|a s IH]; cbn; [done|].
  destruct (Ascii.eqb a sep); [done|]. intros Hc. by rewrite IH.
Qed.

Lemma split_on_assignment sep key value :
  count_char sep key = 0%nat → count_char sep value = 0%nat →
  tasks.split_on sep (key ++ String sep value) = [key; value].
Proof.
  intros Hkey Hvalue. induction key as [|a key IH].
  - change (tasks.split_on sep (String sep value) = [""; value]). cbn.
    by rewrite Ascii.eqb_refl, split_on_no_sep.
  - change (tasks.split_on sep (String a (key ++ String sep value))
            = [String a key; value]).
    cbn in *. destruct (Ascii.eqb a sep); [done|]. by rewrite IH.
Qed.

Lemma parse_lines_lookup lines d d' key value :
  tasks.parse_lines lines d = tasks.Returns d' →
  d' !! key = Some value →
  d !! key = Some value
  ∨ ∃ line v, line ∈ lines ∧ tasks.strip line = (key ++ String "="%char v)%string.
Proof.
  revert d. induction lines as [|line lines IH]; intros d; cbn.
  { intros [= <-]. by left. }
  destruct (tasks.strip line) as [|a s] eqn:Hstrip.
  { intros Hp Hl. destruct (IH _ Hp Hl) as [?|(l & v & ? & ?)]; [by left|].
    right. exists l, v. split; [by right|done]. }
  destruct (tasks.split_on "=" (String a s)) as [|k [|v [|? ?]]] eqn:Hsplit; try done.
  intros Hp Hl. destruct (IH _ Hp Hl) as [Hd|(l & v' & ? & ?)].
  - destruct (decide (k = key)) as [->|Hne].
    + right. exists line, v. split; [by left|].
      rewrite Hstrip. by apply split_on_pair.
    + left. by rewrite lookup_insert_ne in Hd.
  - right. exists l, v'. split; [by right|done].
Qed.

(** X16. Without an install type, a file in which no line starts (after
    stripping) with "ID_LIKE=" is never detected: [get_os] raises
    [ValueError] or [KeyError], or prints the unsupported-install-type message
    with an empty type and exits with code 1. Debian's own file is such a
    file. *)
Theorem get_os_without_id_like_never_returns py_float content :
  Forall (λ line, String.prefix "ID_LIKE=" (tasks.strip line) = false)
         (tasks.readlines content) →
  match tasks.get_os py_float None (Some content) with
  | tasks.Returns _ => False
  | tasks.Raises e => e = tasks.ValueError ∨ e = tasks.KeyError
  | tasks.Exits printed code =>
      printed = ["unsupported os install type()";
                 "trying using the -i option to specify an install type"]
      ∧ code = 1
  end.
Proof.
  intros Hlines. unfold tasks.get_os.
  pose proof (parse_lines_outcome (tasks.readlines content) ∅) as Hparse.
  destruct (tasks.parse_lines (tasks.readlines content) ∅) as [d|e|] eqn:Hd;
    [|by left; apply Hparse|done].
  destruct (d !! "ID") as [name_value|]; [|by right].
  destruct (d !! "ID_LIKE") as [like_value|] eqn:Hlike.
  { destruct (parse_lines_lookup _ _ _ _ _ Hd Hlike) as [?|(line & v & Hin & Hstrip)];
      [done|].
    rewrite Forall_forall in Hlines. specialize (Hlines line Hin).
    rewrite Hstrip in Hlines. destruct v; by vm_compute in Hlines. }
  by destruct (d !! "VERSION_ID") as [version_value|]; [|right].
Qed.

Lemma get_os_without_id_like_never_returns_witness :
  match tasks.get_os example_float None (Some debian_release) with
  | tasks.Returns _ => False
  | tasks.Raises e => e = tasks.ValueError ∨ e = tasks.KeyError
  | tasks.Exits printed code =>
      printed = ["unsupported os install type()";
                 "trying using the -i option to specify an install type"]
      ∧ code = 1
  end.
Proof.
  apply (get_os_without_id_like_never_returns example_float debian_release).
  vm_compute. repeat constructor.
Defined.

(** X17. A line that, once stripped, reads [key=value] with no other "=" binds
    [key] to [value] without its surrounding double quotes: read after other
    lines, it replaces what they bound to [key] and keeps their other
    bindings. *)
Theorem os_release_later_line_overrides lines line key value d :
  tasks.parse_lines lines ∅ = tasks.Returns d →
  tasks.strip line = (key ++ String "="%char value)%string →
  count_char "="%char key = 0%nat →
  count_char "="%char value = 0%nat →
  tasks.parse_lines (lines ++ [line]) ∅
  = tasks.Returns (<[key := tasks.strip_quotes value]> d).
Proof.
  intros Hd Hstrip Hkey Hvalue. rewrite parse_lines_app, Hd. cbn.
  rewrite Hstrip, split_on_assignment by done.
  by destruct key.
Qed.

Lemma os_release_later_line_overrides_witness :
  tasks.parse_lines
    (["ID=ubuntu"; "VERSION_ID=12"]
     ++ [("  ID=" ++ tasks.double_quote ++ "debian" ++ tasks.double_quote
          ++ tasks.newline)%string]) ∅
  = tasks.Returns (<["ID" := "debian"]> {["ID" := "ubuntu"; "VERSION_ID" := "12"]}).
Proof.
  apply (os_release_later_line_overrides
           ["ID=ubuntu"; "VERSION_ID=12"]
           ("  ID=" ++ tasks.double_quote ++ "debian" ++ tasks.double_quote
            ++ tasks.newline)%string
           "ID" (tasks.double_quote ++ "debian" ++ tasks.double_quote)%string
           {["ID" := "ubuntu"; "VERSION_ID" := "12"]}).
  - vm_compute. reflexivity.
  - vm_compute. reflexivity.
  - reflexivity.
  - reflexivity.
Defined.

(** * Properties of the install steps *)

Ltac unfold_commands :=
  unfold tasks.install_system, tasks.check_existing_core, tasks.version_ge_8,
    tasks.run, tasks.raise, tasks.sys_exit, mbind, tasks.Sh_bind, mret, tasks.Sh_ret;
  cbn.

Ltac run_commands succeeds :=
  repeat (match goal with
          | |- context [succeeds ?ran ?command] =>
              destruct (succeeds ran command) eqn:?; cbn
          end).

Ltac use_statuses succeeds :=
  repeat (match goal with
          | H : succeeds ?ran ?command = _ |- context [succeeds ?ran ?command] =>
              rewrite H
          end).

(** X18. With [no_python] set, [install_system] does not read the environment:
    the commands it runs and its outcome are the same whatever PYTHON_DEP
    holds. *)
Theorem install_system_no_python_ignores_environ
    succeeds environ environ' os_info ran :
  tasks.install_system succeeds environ os_info true ran
  = tasks.install_system succeeds environ' os_info true ran.
Proof. reflexivity. Qed.

(** X19. [install_system] keeps the commands already run, runs at most four more,
    and stops at the first one that fails. If it returns, every command it ran
    succeeded. If it raises [UnexpectedExit] or exits, the last command it ran
    failed and those before succeeded; it only exits with code 1, after
    modprobe failed. It raises [TypeError] only on a redhat-like CentOS whose
    version is not a float, after its yum installs succeeded. *)
Theorem install_system_stops_at_first_failure
    succeeds environ os_info no_python ran :
  ∃ commands,
    (tasks.install_system succeeds environ os_info no_python ran).2 = ran ++ commands
    ∧ (length commands ≤ 4)%nat
    ∧ match (tasks.install_system succeeds environ os_info no_python ran).1 with
      | tasks.Returns _ =>
          exit_statuses succeeds ran commands = replicate (length commands) true
      | tasks.Raises tasks.UnexpectedExit =>
          exit_statuses succeeds ran commands
          = replicate (length commands - 1) true ++ [false]
      | tasks.Exits _ code =>
          code = 1
          ∧ last commands = Some "sudo modprobe sch_netem"
          ∧ exit_statuses succeeds ran commands
            = replicate (length commands - 1) true ++ [false]
      | tasks.Raises tasks.TypeError =>
          tasks.OsInfo.like os_info = tasks.OsLike.REDHAT
          ∧ tasks.OsInfo.name os_info = tasks.OsName.CENTOS
          ∧ (∀ x, tasks.OsInfo.version os_info ≠ tasks.VersionFloat x)
          ∧ exit_statuses succeeds ran commands = replicate (length commands) true
      | tasks.Raises _ => False
      end.
Proof.
  destruct os_info as [name [] version], no_python; cbn [tasks.OsInfo.like
    tasks.OsInfo.name tasks.OsInfo.version].
  all: try (destruct name).
  all: try (destruct version as [| |x]; [| |destruct (tasks.float_ge_8 x) eqn:?]).
  all: unfold_commands.
  all: try rewrite Heqb.
  all: run_commands succeeds.
  all: eexists; (split; [rewrite <- ?(assoc_L (++)); try reflexivity;
                         symmetry; apply (right_id_L [] (++))|]).
  all: cbn; use_statuses succeeds.
  all: split_and?; try done; try lia.
Qed.

Lemma get_os_install_type_unknown py_float install_type os_release info :
  install_type ≠ "" →
  tasks.get_os py_float (Some install_type) os_release = tasks.Returns info →
  tasks.OsInfo.name info = tasks.OsName.UNKNOWN.
Proof.
  intros Hne. destruct install_type as [|a s]; [done|].
  unfold tasks.get_os, tasks.OsInfo.get.
  destruct (tasks.OsLike.get _); [|done]. by intros [= <-].
Qed.

Lemma count_char_app c s1 s2 :
  count_char c (s1 ++ s2) = (count_char c s1 + count_char c s2)%nat.
Proof.
  induction s1 as [|a s1 IH]; [done|].
  change (count_char c (String a (s1 ++ s2))
          = (count_char c (String a s1) + count_char c s2)%nat).
  cbn. rewrite IH. lia.
Qed.

Lemma python_commands_not_kernel python_dep command :
  command = ("sudo apt install -y " ++ python_dep ++ "-tk")%string
  ∨ command = ("sudo yum install -y " ++ python_dep ++ "-devel "
               ++ python_dep ++ "-tkinter ")%string →
  command ≠ "sudo yum install -y kernel-modules-extra"
  ∧ command ≠ "sudo modprobe sch_netem".
Proof.
  intros [->| ->]; split; intros H; try (by vm_compute in H).
  apply (f_equal (count_char " "%char)) in H.
  rewrite !count_char_app in H. cbn in H. lia.
Qed.

(** X20. After a forced install type, [install_system] never compares the
    missing version: it runs at most the two package installs, never the
    kernel-module commands, and it returns or raises [UnexpectedExit], never
    [TypeError] and never an exit. *)
Theorem forced_install_type_skips_kernel_check
    py_float install_type os_release info succeeds environ no_python ran :
  install_type ≠ "" →
  tasks.get_os py_float (Some install_type) os_release = tasks.Returns info →
  ∃ commands,
    (tasks.install_system succeeds environ info no_python ran).2 = ran ++ commands
    ∧ (length commands ≤ 2)%nat
    ∧ ("sudo yum install -y kernel-modules-extra" ∉ commands)
    ∧ ("sudo modprobe sch_netem" ∉ commands)
    ∧ ((tasks.install_system succeeds environ info no_python ran).1 = tasks.Returns tt
       ∨ (tasks.install_system succeeds environ info no_python ran).1
         = tasks.Raises tasks.UnexpectedExit).
Proof.
  intros Hne Hget.
  pose proof (get_os_install_type_unknown _ _ _ _ Hne Hget) as Hname.
  clear Hget. destruct info as [name like version]. cbn in Hname. subst name.
  destruct like, no_python; unfold_commands; run_commands succeeds.
  all: eexists; (split; [rewrite <- ?(assoc_L (++)); reflexivity|]).
  all: split_and!; [cbn; lia| | |by auto].
  all: intros Hin; rewrite ?elem_of_app, ?elem_of_cons, ?elem_of_nil in Hin.
  all: destruct_or!; try done; try (by vm_compute in Hin).
  all: symmetry in Hin.
  all: by eapply python_commands_not_kernel in Hin; [destruct Hin|auto].
Qed.

Lemma forced_install_type_skips_kernel_check_witness :
  ∃ commands,
    (tasks.install_system (λ _ _, true) ∅
       (tasks.OsInfo.Build tasks.OsName.UNKNOWN tasks.OsLike.REDHAT tasks.VersionNone)
       false []).2 = commands
    ∧ (length commands ≤ 2)%nat.
Proof.
  destruct (forced_install_type_skips_kernel_check
              example_float "redhat" None
              (tasks.OsInfo.Build tasks.OsName.UNKNOWN tasks.OsLike.REDHAT
                 tasks.VersionNone)
              (λ _ _, true) ∅ false [])
    as (commands & Hran & Hlen & _).
  - done.
  - reflexivity.
  - exists commands. split; [exact Hran|exact Hlen].
Defined.

(** X21. [check_existing_core] runs its three probes in order and stops at the
    first that succeeds, raising [SystemError]; it returns only after all
    three failed. A failing probe never raises, and nothing already run is
    forgotten. *)
Theorem check_existing_core_outcome succeeds environ ran :
  ∃ commands,
    (tasks.check_existing_core succeeds environ ran).2 = ran ++ commands
    ∧ match (tasks.check_existing_core succeeds environ ran).1 with
      | tasks.Returns _ =>
          length commands = 3%nat
          ∧ exit_statuses succeeds ran commands = [false; false; false]
      | tasks.Raises (tasks.SystemError _) =>
          (1 ≤ length commands ≤ 3)%nat
          ∧ exit_statuses succeeds ran commands
            = replicate (length commands - 1) false ++ [true]
      | _ => False
      end.
Proof.
  unfold_commands; run_commands succeeds.
  all: eexists; (split; [rewrite <- ?(assoc_L (++)); reflexivity|]).
  all: cbn; use_statuses succeeds.
  all: split_and?; try done; lia.
Qed.
